(** * graphql-eslint: the [require-deprecation-date] rule

    A shallow embedding of
    [packages/plugin/src/rules/require-deprecation-date.ts] and the
    properties of its listener for [Directive[name.value=deprecated]].

    The listener is straight-line code with early [return]s, one side
    effect ([context.report]) and three ways of raising a [TypeError]
    (coercing to a string a value that has no string image, calling a
    method that does not exist, reading a property of [undefined]).
    It is modelled as a function to an [Outcome]: the reports handed
    to the host, in order, and how the call completed. *)

From Stdlib Require Import String Ascii List ZArith Bool Lia.
Import ListNotations.

Local Open Scope string_scope.
Local Open Scope list_scope.

(* ================================================================== *)
(** * The JavaScript values and built-ins the rule relies on           *)
(* ================================================================== *)

Module JS.

(** The only error the listener can raise. *)
Inductive Error : Type := TypeError.

(** Completion of an expression or of a call: a value or a throw. *)
Inductive Completion (A : Type) : Type :=
| Return (a : A)
| Throw (e : Error).
Arguments Return {A} a.
Arguments Throw {A} e.

Definition bind {A B : Type} (c : Completion A) (k : A -> Completion B)
  : Completion B :=
  match c with
  | Return a => k a
  | Throw e => Throw e
  end.

Notation "x <- c ;; k" := (bind c (fun x => k))
  (at level 61, c at next level, right associativity).

(** What [valueFromNode] can hand back.  The rule uses the value in
    two ways only: it coerces it to a string ([RegExp.prototype.test]
    applies ToString to its argument) and it calls [.split] on it.
    A value that is not a string is therefore represented by what
    ToString makes of it: a string image (numbers, booleans, [null],
    [undefined], arrays of such), or nothing at all, for the object
    without prototype that an object literal is turned into and for
    an array that holds one, on which ToString throws.  None of the
    values that are not strings has a [split] method. *)
Inductive Value : Type :=
| VString (s : string)
| VOther (coerced : string)
| VOpaque.

Definition ToString (v : Value) : Completion string :=
  match v with
  | VString s => Return s
  | VOther s => Return s
  | VOpaque => Throw TypeError
  end.

(** [a || b] on optional strings: [undefined] and [''] are falsy. *)
Definition or_else (a : option string) (b : string) : string :=
  match a with
  | None => b
  | Some "" => b
  | Some s => s
  end.

(** [`${x}`] for a possibly undefined string. *)
Definition interpolate (x : option string) : string :=
  match x with
  | Some s => s
  | None => "undefined"
  end.

(** ** [String.prototype.split] with a one-character separator *)

Fixpoint split (sep : ascii) (s : string) : list string :=
  match s with
  | EmptyString => [EmptyString]
  | String c rest =>
      if Ascii.eqb c sep then EmptyString :: split sep rest
      else match split sep rest with
           | [] => [String c EmptyString]
           | piece :: pieces => String c piece :: pieces
           end
  end.

(** [v.split(sep)]: a [TypeError] when [v] has no such method. *)
Definition call_split (v : Value) (sep : ascii) : Completion (list string) :=
  match v with
  | VString s => Return (split sep s)
  | VOther _ | VOpaque => Throw TypeError
  end.

(** ** [String.prototype.padStart] with a one-character filler *)

Fixpoint replicate (n : nat) (c : ascii) : string :=
  match n with
  | O => EmptyString
  | S n' => String c (replicate n' c)
  end.

Definition padStart (targetLength : nat) (fill : ascii) (s : string) : string :=
  replicate (targetLength - String.length s) fill ++ s.

(** [x.padStart(n, fill)]: a [TypeError] when [x] is [undefined]. *)
Definition call_padStart (x : option string) (targetLength : nat) (fill : ascii)
  : Completion string :=
  match x with
  | Some s => Return (padStart targetLength fill s)
  | None => Throw TypeError
  end.

(** ** Regular expressions

    The fragment the two patterns of the rule are written in: [\d],
    a literal character, concatenation and [{n}].  Both patterns are
    anchored with [^] and [$] and carry no flag, so [test] is a
    full-string match ([$] without the [m] flag matches at the very
    end of the input only). *)

Inductive RegExp : Type :=
| Digit                              (* \d *)
| Chr (c : ascii)                    (* a literal character *)
| Seq (r1 r2 : RegExp)               (* r1 r2 *)
| Times (n : nat) (r : RegExp).      (* r{n} *)

Definition is_digit (c : ascii) : bool :=
  let n := nat_of_ascii c in (48 <=? n)%nat && (n <=? 57)%nat.

(** [strip r s]: what is left of [s] after [r] has matched a prefix.
    Every expression of the fragment matches at most one prefix. *)
Fixpoint strip (r : RegExp) (s : string) {struct r} : option string :=
  match r with
  | Digit =>
      match s with
      | String c rest => if is_digit c then Some rest else None
      | EmptyString => None
      end
  | Chr c' =>
      match s with
      | String c rest => if Ascii.eqb c c' then Some rest else None
      | EmptyString => None
      end
  | Seq r1 r2 =>
      match strip r1 s with
      | Some rest => strip r2 rest
      | None => None
      end
  | Times n r' =>
      (fix iter (k : nat) (s : string) : option string :=
         match k with
         | O => Some s
         | S k' => match strip r' s with
                   | Some rest => iter k' rest
                   | None => None
                   end
         end) n s
  end.

(** [/^r$/.test(s)] *)
Definition test (r : RegExp) (s : string) : bool :=
  match strip r s with
  | Some EmptyString => true
  | _ => false
  end.

End JS.

(* ================================================================== *)
(** * The syntax tree the listener reads                               *)
(* ================================================================== *)

(** Start and end offsets in the linted source text. *)
Definition Range : Type := (nat * nat)%type.

Module NameNode.
Record t : Type := { value : string; range : Range }.
End NameNode.

(** [node.parent]: the node the directive is attached to.  The
    listener reads [parent.name], [parent.name.value] and hands
    [parent] itself to [getNodeName] and to [fixer.remove].  The
    selector takes a [@deprecated] under any parent, and the listener
    reads the parent through [node as any]: fields, arguments, input
    fields and enum values carry a name, a schema definition, an
    anonymous operation or an inline fragment does not. *)
Module ParentNode.
Record t : Type := {
  kind : string;
  name : option NameNode.t;
  container : option string;   (* the name of the enclosing type, if any *)
  range : Range
}.
End ParentNode.

(** [V] is the type of value nodes; the listener never looks inside
    one, it passes it to [valueFromNode] and to [context.report]. *)
Module ArgumentNode.
Record t (V : Type) : Type := { name : NameNode.t; value : V }.
Arguments name {V} _.
Arguments value {V} _.
End ArgumentNode.

Module DirectiveNode.
Record t (V : Type) : Type := {
  name : NameNode.t;
  arguments : option (list (ArgumentNode.t V));   (* [arguments?:] *)
  parent : ParentNode.t
}.
Arguments name {V} _.
Arguments arguments {V} _.
Arguments parent {V} _.
End DirectiveNode.

(* ================================================================== *)
(** * What the listener hands to the host                              *)
(* ================================================================== *)

Inductive MessageId : Type :=
| MESSAGE_REQUIRE_DATE
| MESSAGE_INVALID_FORMAT
| MESSAGE_INVALID_DATE
| MESSAGE_CAN_BE_REMOVED.

(** The [node] of a report: the rule reports on name tokens and on
    value nodes. *)
Inductive ReportNode (V : Type) : Type :=
| OnName (n : NameNode.t)
| OnValue (v : V).
Arguments OnName {V} n.
Arguments OnValue {V} v.

(** The edit a suggestion's [fix] callback builds.  The rule only ever
    calls [fixer.remove(node)], which deletes [node.range]. *)
Inductive Fix : Type := RemoveRange (r : Range).

Definition fixer_remove (p : ParentNode.t) : Fix :=
  RemoveRange (ParentNode.range p).

Record Suggestion : Type := { desc : string; edit : Fix }.

(** The descriptor passed to [context.report].  [data] keeps the keys
    in the order the source writes them; a descriptor without a
    [suggest] property has [suggest = []]. *)
Record Report (V : Type) : Type := {
  node : ReportNode V;
  messageId : MessageId;
  data : list (string * JS.Value);
  suggest : list Suggestion
}.
Arguments node {V} _.
Arguments messageId {V} _.
Arguments data {V} _.
Arguments suggest {V} _.

(** One call of the listener: the reports made, in order, and whether
    the call returned or threw. *)
Record Outcome (V : Type) : Type := {
  reported : list (Report V);
  completion : JS.Completion unit
}.
Arguments reported {V} _.
Arguments completion {V} _.

(** [context.report(d); return;] *)
Definition report_and_return {V : Type} (d : Report V) : Outcome V :=
  {| reported := [d]; completion := JS.Return tt |}.

(** Falling off the end of the listener without a report. *)
Definition return_silently {V : Type} : Outcome V :=
  {| reported := []; completion := JS.Return tt |}.

(** An uncaught exception before any report. *)
Definition throw {V : Type} (e : JS.Error) : Outcome V :=
  {| reported := []; completion := JS.Throw e |}.

(** The kind of the first report of an outcome, if any. *)
Definition messageId_of_first {V : Type} (o : Outcome V) : option MessageId :=
  match reported o with
  | d :: _ => Some (messageId d)
  | [] => None
  end.

(** [RuleOptions]: at most one object with an optional [argumentName]. *)
Record RuleOption : Type := { argumentName : option string }.

Module Context.
Record t : Type := { options : list RuleOption }.
End Context.

(* ================================================================== *)
(** * The rule                                                         *)
(* ================================================================== *)

(** [/^\d{2}\/\d{2}\/\d{4}$/] *)
Definition DATE_REGEX1 : JS.RegExp :=
  JS.Seq (JS.Times 2 JS.Digit)
    (JS.Seq (JS.Chr "/")
       (JS.Seq (JS.Times 2 JS.Digit)
          (JS.Seq (JS.Chr "/") (JS.Times 4 JS.Digit)))).

(** [/^\d{4}(?:\/\d{2}){2}$/] *)
Definition DATE_REGEX2 : JS.RegExp :=
  JS.Seq (JS.Times 4 JS.Digit)
    (JS.Times 2 (JS.Seq (JS.Chr "/") (JS.Times 2 JS.Digit))).

Section Rule.

Import JS.

(** The type of value nodes and the collaborators the rule imports or
    finds on the platform:
    - [valueFromNode] ([../estree-converter]) turns a value node into a
      native value;
    - [getNodeName] ([../utils]) renders the label of a member;
    - [Date_parse] is [Date.parse], with [None] for [NaN] and
      [Some ms] for a time value in milliseconds. *)
Variable ValueNode : Type.
Variable valueFromNode : ValueNode -> Value.
Variable getNodeName : ParentNode.t -> string.
Variable Date_parse : string -> option Z.

(** [context.options[0]?.argumentName || 'deletionDate'] *)
Definition argName (context : Context.t) : string :=
  or_else
    (match nth_error (Context.options context) 0 with
     | Some o => argumentName o
     | None => None
     end)
    "deletionDate".

(** [node.arguments?.find(arg => arg.name.value === argName)] *)
Definition deletionDateNode (context : Context.t)
    (node : DirectiveNode.t ValueNode) : option (ArgumentNode.t ValueNode) :=
  match DirectiveNode.arguments node with
  | Some args =>
      find (fun arg =>
              String.eqb (NameNode.value (ArgumentNode.name arg)) (argName context))
           args
  | None => None
  end.

(** The destructuring assignments of lines 110-115, as the triple
    [(day, month, year)]; a missing array element is [undefined]. *)
Definition day_month_year (deletionDate : Value)
    (isValidDate1 isValidDate2 : bool)
  : Completion (option string * option string * option string) :=
  if isValidDate1 then
    parts <- call_split deletionDate "/" ;;
    Return (nth_error parts 0, nth_error parts 1, nth_error parts 2)
  else if isValidDate2 then
    parts <- call_split deletionDate "-" ;;
    Return (nth_error parts 2, nth_error parts 1, nth_error parts 0)
  else Return (None, None, None).

(** Lines 110-118: the value of [deletionDateInMS], or the exception
    raised on the way. *)
Definition deletionDateInMS (deletionDate : Value)
    (isValidDate1 isValidDate2 : bool) : Completion (option Z) :=
  dmy <- day_month_year deletionDate isValidDate1 isValidDate2 ;;
  let '(day, month, year) := dmy in
  day <- call_padStart day 2 "0" ;;
  month <- call_padStart month 2 "0" ;;
  Return (Date_parse (interpolate year ++ "-" ++ month ++ "-" ++ day)).

(** The four report descriptors. *)
Definition require_date (node : DirectiveNode.t ValueNode) : Report ValueNode :=
  {| node := OnName (DirectiveNode.name node);
     messageId := MESSAGE_REQUIRE_DATE;
     data := [("nodeName", VString (getNodeName (DirectiveNode.parent node)))];
     suggest := [] |}.

Definition invalid_format (node : DirectiveNode.t ValueNode)
    (arg : ArgumentNode.t ValueNode) : Report ValueNode :=
  {| node := OnValue (ArgumentNode.value arg);
     messageId := MESSAGE_INVALID_FORMAT;
     data := [("nodeName", VString (getNodeName (DirectiveNode.parent node)))];
     suggest := [] |}.

Definition invalid_date (node : DirectiveNode.t ValueNode)
    (arg : ArgumentNode.t ValueNode) (deletionDate : Value) : Report ValueNode :=
  {| node := OnValue (ArgumentNode.value arg);
     messageId := MESSAGE_INVALID_DATE;
     data := [("deletionDate", deletionDate);
              ("nodeName", VString (getNodeName (DirectiveNode.parent node)))];
     suggest := [] |}.

(** Lines 137-147, with [name] the [parent.name] that line 136 has
    read [.value] of. *)
Definition can_be_removed (node : DirectiveNode.t ValueNode)
    (name : NameNode.t) : Report ValueNode :=
  let parent := DirectiveNode.parent node in
  let nodeName := NameNode.value name in
  {| node := OnName name;
     messageId := MESSAGE_CAN_BE_REMOVED;
     data := [("nodeName", VString (getNodeName parent))];
     suggest := [ {| desc := "Remove `" ++ nodeName ++ "`";
                     edit := fixer_remove parent |} ] |}.

(** Lines 135-147: [parent.name.value] throws when the parent has no
    name; otherwise the report is made and the listener ends. *)
Definition suggest_removal (node : DirectiveNode.t ValueNode)
  : Outcome ValueNode :=
  match ParentNode.name (DirectiveNode.parent node) with
  | None => throw TypeError
  | Some name => report_and_return (can_be_removed node name)
  end.

(** The listener registered for ['Directive[name.value=deprecated]'].
    [now] is the value of [Date.now()] during the call.  The two
    calls of [test] coerce [deletionDate] to the same string, or the
    first one throws; line 136 throws when [parent.name] is
    [undefined]. *)
Definition listener (context : Context.t) (now : Z)
    (node : DirectiveNode.t ValueNode) : Outcome ValueNode :=
  match deletionDateNode context node with
  | None => report_and_return (require_date node)
  | Some arg =>
      let deletionDate := valueFromNode (ArgumentNode.value arg) in
      match ToString deletionDate with
      | Throw e => throw e
      | Return image =>
          let isValidDate1 := test DATE_REGEX1 image in
          let isValidDate2 := test DATE_REGEX2 image in
          if negb isValidDate1 && negb isValidDate2 then
            report_and_return (invalid_format node arg)
          else
            match deletionDateInMS deletionDate isValidDate1 isValidDate2 with
            | Throw e => throw e
            | Return None =>
                report_and_return (invalid_date node arg deletionDate)
            | Return (Some ms) =>
                let canRemove := (now >? ms)%Z in
                if canRemove then suggest_removal node
                else return_silently
            end
      end
  end.

(** The selector under which [create] registers the listener. *)
Definition selector (node : DirectiveNode.t ValueNode) : bool :=
  String.eqb (NameNode.value (DirectiveNode.name node)) "deprecated".

(** What the rule does with one directive node of the document. *)
Definition create (context : Context.t) (now : Z)
    (node : DirectiveNode.t ValueNode) : Outcome ValueNode :=
  if selector node then listener context now node else return_silently.

End Rule.

Arguments deletionDateNode {ValueNode} context node.
Arguments require_date {ValueNode} getNodeName node.
Arguments invalid_format {ValueNode} getNodeName node arg.
Arguments invalid_date {ValueNode} getNodeName node arg deletionDate.
Arguments can_be_removed {ValueNode} getNodeName node name.
Arguments suggest_removal {ValueNode} getNodeName node.
Arguments listener {ValueNode} valueFromNode getNodeName Date_parse context now node.
Arguments selector {ValueNode} node.
Arguments create {ValueNode} valueFromNode getNodeName Date_parse context now node.

(* ================================================================== *)
(** * An instance of the collaborators, to run the rule on documents   *)
(* ================================================================== *)

Module Sample.

(** Decimal numerals. *)
Definition digit_value (c : ascii) : option Z :=
  if JS.is_digit c then Some (Z.of_nat (nat_of_ascii c) - 48)%Z else None.

Fixpoint number_from (acc : Z) (s : string) : option Z :=
  match s with
  | EmptyString => Some acc
  | String c rest =>
      match digit_value c with
      | Some d => number_from (acc * 10 + d)%Z rest
      | None => None
      end
  end.

Definition number (s : string) : option Z :=
  match s with
  | EmptyString => None
  | _ => number_from 0%Z s
  end.

Definition is_leap (y : Z) : bool :=
  ((y mod 4 =? 0) && (negb (y mod 100 =? 0) || (y mod 400 =? 0)))%Z.

Definition days_in_month (y m : Z) : Z :=
  (if m =? 2 then (if is_leap y then 29 else 28)
   else if (m =? 4) || (m =? 6) || (m =? 9) || (m =? 11) then 30
   else 31)%Z.

(** Days between 1970-01-01 and the given day of the proleptic
    Gregorian calendar. *)
Definition days_from_civil (y m d : Z) : Z :=
  (let y' := if m <=? 2 then y - 1 else y in
   let era := y' / 400 in
   let yoe := y' - era * 400 in
   let mp := if m >? 2 then m - 3 else m + 9 in
   let doy := (153 * mp + 2) / 5 + d - 1 in
   let doe := yoe * 365 + yoe / 4 - yoe / 100 + doy in
   era * 146097 + doe - 719468)%Z.

Definition msPerDay : Z := 86400000%Z.

(** Modelled from the spec: [Date.parse] on the canonical
    [YYYY-MM-DD] string the rule builds.  The spec (4.2) resolves it
    to midnight UTC of that calendar day and lets the resolution fail
    when the month is above 12, the day exceeds the month's length, or
    on 29 February of a year that is not a leap year.  The built-in
    itself belongs to the platform, not to the repository; the
    theorems on the listener hold for any [Date_parse]. *)
Definition Date_parse (s : string) : option Z :=
  match JS.split "-" s with
  | [ys; ms; ds] =>
      if (String.length ys =? 4)%nat && (String.length ms =? 2)%nat
         && (String.length ds =? 2)%nat
      then
        match number ys, number ms, number ds with
        | Some y, Some m, Some d =>
            if ((1 <=? m) && (m <=? 12) && (1 <=? d) && (d <=? days_in_month y m))%Z
            then Some (days_from_civil y m d * msPerDay)%Z
            else None
        | _, _, _ => None
        end
      else None
  | _ => None
  end.

(** Documents whose argument values are all string literals: a value
    node is the literal's text, and [valueFromNode] yields it (spec
    4.1: string literals yield their unescaped text). *)
Definition ValueNode : Type := string.

Definition valueFromNode (v : ValueNode) : JS.Value := JS.VString v.

(** Modelled from the spec: [getNodeName] ([../utils], not under
    [src/]).  The spec (4.3) has the label combine the member's kind,
    the name of its container and its own name, as in
    ["field `Foo.bar`"]; a part that is missing is left out. *)
Definition getNodeName (p : ParentNode.t) : string :=
  match ParentNode.name p with
  | None => ParentNode.kind p
  | Some n =>
      ParentNode.kind p ++ " `"
      ++ match ParentNode.container p with
         | Some c => c ++ "."
         | None => ""
         end
      ++ NameNode.value n ++ "`"
  end.

Definition run : Context.t -> Z -> DirectiveNode.t ValueNode -> Outcome ValueNode :=
  create valueFromNode getNodeName Date_parse.

(** [type User { firstname: String @deprecated(...) ... }]: the field
    [firstname] at offsets 14-60 with the given directive arguments. *)
Definition firstname : ParentNode.t :=
  {| ParentNode.kind := "field";
     ParentNode.name :=
       Some {| NameNode.value := "firstname"; NameNode.range := (14, 23) |};
     ParentNode.container := Some "User";
     ParentNode.range := (14, 60) |}.

(** [schema @deprecated(...) { query: Query }]: a parent without a
    name. *)
Definition schema_definition : ParentNode.t :=
  {| ParentNode.kind := "schema";
     ParentNode.name := None;
     ParentNode.container := None;
     ParentNode.range := (0, 58) |}.

Definition arg (n v : string) : ArgumentNode.t ValueNode :=
  {| ArgumentNode.name := {| NameNode.value := n; NameNode.range := (0, 0) |};
     ArgumentNode.value := v |}.

Definition deprecated (args : option (list (ArgumentNode.t ValueNode)))
  : DirectiveNode.t ValueNode :=
  {| DirectiveNode.name := {| NameNode.value := "deprecated"; NameNode.range := (33, 43) |};
     DirectiveNode.arguments := args;
     DirectiveNode.parent := firstname |}.

Definition deprecated_schema (args : option (list (ArgumentNode.t ValueNode)))
  : DirectiveNode.t ValueNode :=
  {| DirectiveNode.name := {| NameNode.value := "deprecated"; NameNode.range := (8, 18) |};
     DirectiveNode.arguments := args;
     DirectiveNode.parent := schema_definition |}.

(** Documents with any kind of argument value: a value node is taken
    for the native value [valueFromNode] makes of it. *)
Definition native_arg (n : string) (v : JS.Value) : ArgumentNode.t JS.Value :=
  {| ArgumentNode.name := {| NameNode.value := n; NameNode.range := (0, 0) |};
     ArgumentNode.value := v |}.

Definition native_deprecated (args : list (ArgumentNode.t JS.Value))
  : DirectiveNode.t JS.Value :=
  {| DirectiveNode.name := {| NameNode.value := "deprecated"; NameNode.range := (33, 43) |};
     DirectiveNode.arguments := Some args;
     DirectiveNode.parent := firstname |}.

Definition native_value (v : JS.Value) : JS.Value := v.

(** 2023-01-01T00:00:00Z, in milliseconds. *)
Definition new_year_2023 : Z := 1672531200000%Z.

End Sample.


(* ================================================================== *)
(** * The two layouts, in the words of the specification               *)
(* ================================================================== *)

Module Layout.

(** Layout A: exactly two digits, [/], two digits, [/], four digits. *)
Definition A (s : string) : bool :=
  match s with
  | String d1 (String d2 (String p (String m1 (String m2 (String q
      (String y1 (String y2 (String y3 (String y4 EmptyString))))))))) =>
      JS.is_digit d1 && JS.is_digit d2 && Ascii.eqb p "/"
      && JS.is_digit m1 && JS.is_digit m2 && Ascii.eqb q "/"
      && JS.is_digit y1 && JS.is_digit y2 && JS.is_digit y3 && JS.is_digit y4
  | _ => false
  end.

(** Layout B: four digits, then two groups of two digits, each
    preceded by the separator. *)
Definition B (sep : ascii) (s : string) : bool :=
  match s with
  | String y1 (String y2 (String y3 (String y4 (String p (String m1
      (String m2 (String q (String d1 (String d2 EmptyString))))))))) =>
      JS.is_digit y1 && JS.is_digit y2 && JS.is_digit y3 && JS.is_digit y4
      && Ascii.eqb p sep && JS.is_digit m1 && JS.is_digit m2
      && Ascii.eqb q sep && JS.is_digit d1 && JS.is_digit d2
  | _ => false
  end.

End Layout.

(** [node] with its argument list replaced. *)
Definition with_arguments {V : Type} (node : DirectiveNode.t V)
    (args : list (ArgumentNode.t V)) : DirectiveNode.t V :=
  {| DirectiveNode.name := DirectiveNode.name node;
     DirectiveNode.arguments := Some args;
     DirectiveNode.parent := DirectiveNode.parent node |}.

(** A configuration that supplies [argumentName]. *)
Definition with_argumentName (n : string) : Context.t :=
  {| Context.options := [ {| argumentName := Some n |} ] |}.

(** No option object, and an option object without the property. *)
Definition no_options : Context.t := {| Context.options := [] |}.

Definition empty_option : Context.t :=
  {| Context.options := [ {| argumentName := None |} ] |}.

(* ================================================================== *)
(** * The message catalogue                                            *)
(* ================================================================== *)

Module ESLint.

(** The host fills a message template from the [data] of a report: it
    replaces every match of [/\{\{([^{}]+?)\}\}/g] whose trimmed
    capture is a key of [data].  [placeholders] lists the trimmed
    captures of a template, in order.  A match is two opening braces,
    one or more characters that are not braces, two closing braces;
    the scanner keeps how far into such a match it is. *)
Inductive scanning : Type :=
| Text (braces : nat)       (* outside; [braces] [{] just read, up to 2 *)
| Key (acc : string)        (* after [{{], the capture so far *)
| Closing (acc : string).   (* capture read, one [}] read *)

Definition is_space (c : ascii) : bool :=
  let n := nat_of_ascii c in
  ((9 <=? n)%nat && (n <=? 13)%nat) || (n =? 32)%nat.

Fixpoint trimStart (s : string) : string :=
  match s with
  | String c rest => if is_space c then trimStart rest else s
  | EmptyString => EmptyString
  end.

Fixpoint trimEnd (s : string) : string :=
  match s with
  | String c rest =>
      match trimEnd rest with
      | EmptyString => if is_space c then EmptyString else String c EmptyString
      | kept => String c kept
      end
  | EmptyString => EmptyString
  end.

Definition trim (s : string) : string := trimEnd (trimStart s).

Fixpoint scan (st : scanning) (s : string) : list string :=
  match s with
  | EmptyString => []
  | String c rest =>
      if Ascii.eqb c "{" then
        match st with
        | Text O => scan (Text 1) rest
        | Text (S _) => scan (Text 2) rest
        | Key _ | Closing _ => scan (Text 1) rest
        end
      else if Ascii.eqb c "}" then
        match st with
        | Text _ => scan (Text 0) rest
        | Key acc => scan (Closing acc) rest
        | Closing acc => trim acc :: scan (Text 0) rest
        end
      else
        match st with
        | Text (S (S _)) => scan (Key (String c EmptyString)) rest
        | Text _ => scan (Text 0) rest
        | Key acc => scan (Key (acc ++ String c EmptyString)) rest
        | Closing _ => scan (Text 0) rest
        end
  end.

Definition placeholders (template : string) : list string :=
  scan (Text 0) template.

End ESLint.

Module Meta.

(** A double quote, and the Cyrillic letter the last message starts
    its second word with (bytes D1 81 in the source file). *)
Definition dq : string := String "034" EmptyString.
Definition cyrillic_es : string := String "209" (String "129" EmptyString).

(** [meta.messages] *)
Definition messages (id : MessageId) : string :=
  match id with
  | MESSAGE_REQUIRE_DATE =>
      "Directive " ++ dq ++ "@deprecated" ++ dq
      ++ " must have a deletion date for {{ nodeName }}"
  | MESSAGE_INVALID_FORMAT =>
      "Deletion date must be in format " ++ dq ++ "DD/MM/YYYY" ++ dq
      ++ " or " ++ dq ++ "YYYY-MM-DD" ++ dq ++ " for {{ nodeName }}"
  | MESSAGE_INVALID_DATE =>
      "Invalid " ++ dq ++ "{{ deletionDate }}" ++ dq
      ++ " deletion date for {{ nodeName }}"
  | MESSAGE_CAN_BE_REMOVED =>
      "{{ nodeName }} " ++ cyrillic_es ++ "an be removed"
  end.

End Meta.

(** The keys of the [data] object of a report, in source order. *)
Definition data_keys {V : Type} (d : Report V) : list string :=
  map fst (data d).

(** The characters of a string. *)
Fixpoint chars (s : string) : list ascii :=
  match s with
  | EmptyString => []
  | String c rest => c :: chars rest
  end.

(* ================================================================== *)
(** * Facts about the built-ins and the two patterns                   *)
(* ================================================================== *)

Module JSFacts.
Import JS.

Lemma digit_is_not_slash (c : ascii) :
  is_digit c = true -> Ascii.eqb c "/" = false.
Proof.
  destruct c as [[] [] [] [] [] [] [] []]; vm_compute; congruence.
Qed.

Lemma digit_is_not_hyphen (c : ascii) :
  is_digit c = true -> Ascii.eqb c "-" = false.
Proof.
  destruct c as [[] [] [] [] [] [] [] []]; vm_compute; congruence.
Qed.

Lemma slash_is_not_hyphen (c : ascii) :
  Ascii.eqb c "/" = true -> Ascii.eqb c "-" = false.
Proof.
  intros H; apply Ascii.eqb_eq in H; subst; reflexivity.
Qed.

End JSFacts.

Ltac split_ifs :=
  repeat match goal with
         | |- context [JS.is_digit ?c] => destruct (JS.is_digit c) eqn:?; cbn
         | |- context [Ascii.eqb ?c ?d] => destruct (Ascii.eqb c d) eqn:?; cbn
         end.

Ltac peel s := destruct s as [|? s]; cbn; [try reflexivity|].

(** The first pattern recognises exactly Layout A. *)
Lemma DATE_REGEX1_is_layout_A (s : string) :
  JS.test DATE_REGEX1 s = Layout.A s.
Proof.
  unfold JS.test, DATE_REGEX1.
  do 10 (peel s; split_ifs; try reflexivity).
  all: destruct s; reflexivity.
Qed.

(** The second pattern recognises exactly Layout B with [/]. *)
Lemma DATE_REGEX2_is_layout_B (s : string) :
  JS.test DATE_REGEX2 s = Layout.B "/" s.
Proof.
  unfold JS.test, DATE_REGEX2.
  do 10 (peel s; split_ifs; try reflexivity).
  all: destruct s; reflexivity.
Qed.

Ltac layout_chars s H :=
  do 10 (destruct s as [|? s]; [discriminate H|]);
  destruct s; [|discriminate H];
  cbn in H;
  repeat match type of H with
         | (_ && _ = true) =>
             let H' := fresh "D" in
             apply andb_prop in H; destruct H as [H H']
         end.

(** A string in Layout B holds no hyphen: splitting it on [-] gives
    the string back, in one piece. *)
Lemma layout_B_split_hyphen (s : string) :
  Layout.B "/" s = true -> JS.split "-" s = [s].
Proof.
  intros H. layout_chars s H. cbn.
  repeat match goal with
         | E : JS.is_digit ?c = true |- _ =>
             rewrite (JSFacts.digit_is_not_hyphen c E); clear E
         | E : Ascii.eqb ?c "/" = true |- _ =>
             rewrite (JSFacts.slash_is_not_hyphen c E); clear E
         end.
  reflexivity.
Qed.

(** Splitting a string in Layout A on [/] gives its three fields. *)
Lemma layout_A_split_slash (s : string) :
  Layout.A s = true ->
  exists dd mm yyyy,
    JS.split "/" s = [dd; mm; yyyy]
    /\ s = (dd ++ "/" ++ mm ++ "/" ++ yyyy)%string
    /\ String.length dd = 2 /\ String.length mm = 2
    /\ String.length yyyy = 4.
Proof.
  intros H. layout_chars s H.
  repeat match goal with
         | E : Ascii.eqb ?c "/" = true |- _ =>
             apply Ascii.eqb_eq in E; subst c
         end.
  cbn.
  repeat match goal with
         | E : JS.is_digit ?c = true |- _ =>
             rewrite (JSFacts.digit_is_not_slash c E); clear E
         end.
  do 3 eexists. repeat split; reflexivity.
Qed.

(** No string is in both layouts. *)
Lemma layouts_disjoint (s : string) :
  Layout.B "/" s = true -> Layout.A s = false.
Proof.
  intros H. layout_chars s H. cbn.
  match goal with
  | E : Ascii.eqb ?c "/" = true, E' : JS.is_digit ?c' = true
    |- context [JS.is_digit ?c] =>
      apply Ascii.eqb_eq in E; subst c
  end.
  cbn. rewrite !andb_false_r. reflexivity.
Qed.

(** [Array.prototype.find] returns the first element that passes. *)
Lemma find_first {A : Type} (f : A -> bool) (l : list A) (x : A) :
  find f l = Some x ->
  exists l1 l2, l = l1 ++ x :: l2 /\ f x = true
                /\ forall y, In y l1 -> f y = false.
Proof.
  induction l as [|a l IH]; cbn; [discriminate|].
  destruct (f a) eqn:Fa.
  - intros [= ->]. exists [], l. repeat split; [exact Fa | intros y []].
  - intros H. destruct (IH H) as (l1 & l2 & -> & Fx & Hl1).
    exists (a :: l1), l2. repeat split; [exact Fx|].
    intros y [<-|Hy]; [exact Fa | exact (Hl1 y Hy)].
Qed.

Lemma find_finds {A : Type} (f : A -> bool) (l : list A) (x : A) :
  In x l -> f x = true -> exists y, find f l = Some y.
Proof.
  intros Hin Fx. destruct (find f l) as [y|] eqn:E; [eauto|].
  rewrite (find_none f l E x Hin) in Fx. discriminate.
Qed.

Lemma find_stops_at_first {A : Type} (f : A -> bool)
    (before after : list A) (x : A) :
  f x = true -> (forall y, In y before -> f y = false) ->
  find f (before ++ x :: after) = Some x.
Proof.
  intros Fx Hb. induction before as [|b before IH]; cbn.
  - rewrite Fx. reflexivity.
  - rewrite (Hb b (or_introl eq_refl)). apply IH.
    intros y Hy. apply Hb. right. exact Hy.
Qed.

(* ================================================================== *)
(** * Properties of the listener                                       *)
(* ================================================================== *)

Section RuleFacts.

Import JS.

Variable ValueNode : Type.
Variable valueFromNode : ValueNode -> Value.
Variable getNodeName : ParentNode.t -> string.
Variable Date_parse : string -> option Z.

Local Abbreviation run_listener := (listener valueFromNode getNodeName Date_parse).
Local Abbreviation run_create := (create valueFromNode getNodeName Date_parse).
Local Abbreviation extracted arg := (valueFromNode (ArgumentNode.value arg)).
Local Abbreviation name_of arg := (NameNode.value (ArgumentNode.name arg)).

(** ** The date computation of lines 110-118 *)

(** When only the second pattern matched, the computation throws: a
    value without [split], or [day] left [undefined] by the split on
    [-]. *)
Lemma deletionDateInMS_layout_B (v : Value) (image : string) :
  ToString v = Return image ->
  test DATE_REGEX2 image = true ->
  deletionDateInMS Date_parse v
    (test DATE_REGEX1 image) (test DATE_REGEX2 image)
  = Throw TypeError.
Proof.
  intros Hi H. rewrite H.
  rewrite DATE_REGEX2_is_layout_B in H.
  rewrite DATE_REGEX1_is_layout_A, (layouts_disjoint _ H).
  unfold deletionDateInMS, day_month_year.
  destruct v as [s|s|]; cbn in *; [|reflexivity|reflexivity].
  injection Hi as ->.
  rewrite (layout_B_split_hyphen _ H). reflexivity.
Qed.

(** On a string in Layout A the computation reaches [Date.parse],
    with the fields reordered to year, month, day. *)
Lemma deletionDateInMS_layout_A (s : string) (b : bool) :
  Layout.A s = true ->
  exists dd mm yyyy,
    s = (dd ++ "/" ++ mm ++ "/" ++ yyyy)%string
    /\ deletionDateInMS Date_parse (VString s) true b
       = Return (Date_parse (yyyy ++ "-" ++ mm ++ "-" ++ dd)).
Proof.
  intros H.
  destruct (layout_A_split_slash s H) as (dd & mm & yyyy & Hs & Heq & Hd & Hm & _).
  exists dd, mm, yyyy. split; [exact Heq|].
  unfold deletionDateInMS, day_month_year. cbn.
  rewrite Hs. cbn. unfold padStart. rewrite Hd, Hm. reflexivity.
Qed.

(** With neither pattern matched, nothing is assigned to [day]. *)
Lemma deletionDateInMS_no_layout (v : Value) :
  deletionDateInMS Date_parse v false false = Throw TypeError.
Proof. reflexivity. Qed.

Lemma deletionDateInMS_returns (v : Value) (b1 b2 : bool) (r : option Z) :
  deletionDateInMS Date_parse v b1 b2 = Return r -> b1 || b2 = true.
Proof.
  destruct b1, b2; try reflexivity.
  rewrite deletionDateInMS_no_layout. discriminate.
Qed.

(** ** The located argument *)

Lemma located_is_named (context : Context.t)
    (node : DirectiveNode.t ValueNode) (arg : ArgumentNode.t ValueNode) :
  deletionDateNode context node = Some arg ->
  name_of arg = argName context
  /\ exists args, DirectiveNode.arguments node = Some args /\ In arg args.
Proof.
  unfold deletionDateNode.
  destruct (DirectiveNode.arguments node) as [args|]; [|discriminate].
  intros H. apply find_some in H. destruct H as [Hin Heq].
  apply String.eqb_eq in Heq. eauto.
Qed.

Lemma nothing_located (context : Context.t) (node : DirectiveNode.t ValueNode) :
  (forall args a, DirectiveNode.arguments node = Some args ->
                  In a args -> name_of a <> argName context) ->
  deletionDateNode context node = None.
Proof.
  intros H. destruct (deletionDateNode context node) as [arg|] eqn:E; [|reflexivity].
  apply located_is_named in E. destruct E as (Hn & args & Ha & Hin).
  exfalso. exact (H args arg Ha Hin Hn).
Qed.

Lemma located_skips_other_names (context : Context.t)
    (node : DirectiveNode.t ValueNode)
    (before after : list (ArgumentNode.t ValueNode)) (a : ArgumentNode.t ValueNode) :
  name_of a <> argName context ->
  deletionDateNode context (with_arguments node (before ++ a :: after))
  = deletionDateNode context (with_arguments node (before ++ after)).
Proof.
  intros Hne. unfold deletionDateNode, with_arguments. cbn.
  induction before as [|b before IH]; cbn.
  - apply String.eqb_neq in Hne. rewrite Hne. reflexivity.
  - destruct (String.eqb (name_of b) (argName context)); [reflexivity|exact IH].
Qed.

Lemma listener_skips_other_names (context : Context.t) (now : Z)
    (node : DirectiveNode.t ValueNode)
    (before after : list (ArgumentNode.t ValueNode)) (a : ArgumentNode.t ValueNode) :
  name_of a <> argName context ->
  run_listener context now (with_arguments node (before ++ a :: after))
  = run_listener context now (with_arguments node (before ++ after)).
Proof.
  intros Hne. unfold listener.
  rewrite (located_skips_other_names context node before after a Hne).
  reflexivity.
Qed.

Lemma create_on_deprecated (context : Context.t) (now : Z)
    (node : DirectiveNode.t ValueNode) :
  selector node = true ->
  run_create context now node = run_listener context now node.
Proof. intros H. unfold create. rewrite H. reflexivity. Qed.

(** ** What the listener does at each step *)

Lemma listener_nothing_located (context : Context.t) (now : Z)
    (node : DirectiveNode.t ValueNode) :
  deletionDateNode context node = None ->
  run_listener context now node
  = report_and_return (require_date getNodeName node).
Proof. intros H. unfold listener. rewrite H. reflexivity. Qed.

Lemma listener_no_layout (context : Context.t) (now : Z)
    (node : DirectiveNode.t ValueNode) (arg : ArgumentNode.t ValueNode)
    (image : string) :
  deletionDateNode context node = Some arg ->
  ToString (extracted arg) = Return image ->
  Layout.A image = false ->
  Layout.B "/" image = false ->
  run_listener context now node
  = report_and_return (invalid_format getNodeName node arg).
Proof.
  intros Hloc Hi HA HB. unfold listener. rewrite Hloc. cbv zeta.
  rewrite Hi.
  rewrite DATE_REGEX1_is_layout_A, DATE_REGEX2_is_layout_B, HA, HB.
  reflexivity.
Qed.

(** Every value accepted by the second pattern makes the listener
    throw before it reports anything. *)
Lemma listener_layout_B (context : Context.t) (now : Z)
    (node : DirectiveNode.t ValueNode) (arg : ArgumentNode.t ValueNode)
    (image : string) :
  deletionDateNode context node = Some arg ->
  ToString (extracted arg) = Return image ->
  test DATE_REGEX2 image = true ->
  run_listener context now node = throw TypeError.
Proof.
  intros Hloc Hi H. unfold listener. rewrite Hloc. cbv zeta. rewrite Hi.
  rewrite (deletionDateInMS_layout_B _ _ Hi H).
  rewrite H, andb_false_r. reflexivity.
Qed.

(** On a string in Layout A the listener goes by what [Date.parse]
    makes of the reordered fields. *)
Lemma listener_layout_A (context : Context.t) (now : Z)
    (node : DirectiveNode.t ValueNode) (arg : ArgumentNode.t ValueNode)
    (s : string) :
  deletionDateNode context node = Some arg ->
  extracted arg = VString s ->
  Layout.A s = true ->
  exists dd mm yyyy,
    s = (dd ++ "/" ++ mm ++ "/" ++ yyyy)%string
    /\ run_listener context now node
       = match Date_parse (yyyy ++ "-" ++ mm ++ "-" ++ dd) with
         | None => report_and_return (invalid_date getNodeName node arg (VString s))
         | Some ms => if (now >? ms)%Z
                      then suggest_removal getNodeName node
                      else return_silently
         end.
Proof.
  intros Hloc Hv HA.
  destruct (deletionDateInMS_layout_A s (test DATE_REGEX2 s) HA)
    as (dd & mm & yyyy & Heq & Hms).
  exists dd, mm, yyyy. split; [exact Heq|].
  unfold listener. rewrite Hloc. cbv zeta.
  rewrite Hv. cbn [ToString].
  rewrite DATE_REGEX1_is_layout_A, HA. cbn [negb andb].
  rewrite Hms. reflexivity.
Qed.

(** ** The claims *)

(** C5. A directive named [deprecated] with no argument named as
    configured gets exactly one report: [MESSAGE_REQUIRE_DATE], on the
    directive's name token, with [nodeName] the label of the parent
    member, and without a suggestion. *)
Theorem require_date_when_argument_missing (context : Context.t) (now : Z)
    (node : DirectiveNode.t ValueNode) :
  selector node = true ->
  (forall args a, DirectiveNode.arguments node = Some args ->
                  In a args -> name_of a <> argName context) ->
  run_create context now node
  = {| reported :=
         [ {| node := OnName (DirectiveNode.name node);
              messageId := MESSAGE_REQUIRE_DATE;
              data := [("nodeName",
                        VString (getNodeName (DirectiveNode.parent node)))];
              suggest := [] |} ];
       completion := Return tt |}.
Proof.
  intros Hsel Hnone. rewrite (create_on_deprecated _ _ _ Hsel).
  unfold listener. rewrite (nothing_located _ _ Hnone). reflexivity.
Qed.

(** C6. When the extracted value is a string in neither Layout A nor
    Layout B, the listener reports [MESSAGE_INVALID_FORMAT] on the
    argument's value node and returns. *)
Theorem invalid_format_when_no_layout (context : Context.t) (now : Z)
    (node : DirectiveNode.t ValueNode) (arg : ArgumentNode.t ValueNode)
    (s : string) :
  deletionDateNode context node = Some arg ->
  extracted arg = VString s ->
  Layout.A s = false ->
  Layout.B "/" s = false ->
  run_listener context now node
  = {| reported :=
         [ {| node := OnValue (ArgumentNode.value arg);
              messageId := MESSAGE_INVALID_FORMAT;
              data := [("nodeName",
                        VString (getNodeName (DirectiveNode.parent node)))];
              suggest := [] |} ];
       completion := Return tt |}.
Proof.
  intros Hloc Hv HA HB. unfold listener. rewrite Hloc. cbv zeta.
  rewrite Hv. cbn [ToString].
  rewrite DATE_REGEX1_is_layout_A, DATE_REGEX2_is_layout_B, HA, HB.
  reflexivity.
Qed.

(** C3. One call of the listener makes no report or exactly one, and
    a call that reports returns right after.  The kind of the report
    is fixed by the first step that fails, in the order: locate the
    argument, match a layout, resolve the date, compare with now; so
    the four kinds exclude each other. *)
Theorem one_diagnostic_in_strict_order (context : Context.t) (now : Z)
    (node : DirectiveNode.t ValueNode) :
  let o := run_listener context now node in
  (reported o = [] \/ exists d, reported o = [d] /\ completion o = Return tt)
  /\ forall d, In d (reported o) ->
       match messageId d with
       | MESSAGE_REQUIRE_DATE =>
           deletionDateNode context node = None
       | MESSAGE_INVALID_FORMAT =>
           exists arg image,
             deletionDateNode context node = Some arg
             /\ ToString (extracted arg) = Return image
             /\ test DATE_REGEX1 image = false
             /\ test DATE_REGEX2 image = false
       | MESSAGE_INVALID_DATE =>
           exists arg image,
             deletionDateNode context node = Some arg
             /\ ToString (extracted arg) = Return image
             /\ test DATE_REGEX1 image || test DATE_REGEX2 image = true
             /\ deletionDateInMS Date_parse (extracted arg)
                  (test DATE_REGEX1 image) (test DATE_REGEX2 image)
                = Return None
       | MESSAGE_CAN_BE_REMOVED =>
           exists arg image ms name,
             deletionDateNode context node = Some arg
             /\ ToString (extracted arg) = Return image
             /\ test DATE_REGEX1 image || test DATE_REGEX2 image = true
             /\ deletionDateInMS Date_parse (extracted arg)
                  (test DATE_REGEX1 image) (test DATE_REGEX2 image)
                = Return (Some ms)
             /\ (ms < now)%Z
             /\ ParentNode.name (DirectiveNode.parent node) = Some name
       end.
Proof.
  unfold listener, suggest_removal.
  destruct (deletionDateNode context node) as [arg|] eqn:Hloc; cbv zeta.
  2:{ split; [right; eexists; split; reflexivity|].
      intros d [<-|[]]. reflexivity. }
  destruct (ToString (extracted arg)) as [image|e] eqn:Hi.
  2:{ split; [left; reflexivity | intros d []]. }
  destruct (test DATE_REGEX1 image) eqn:H1;
    destruct (test DATE_REGEX2 image) eqn:H2;
    cbn [negb andb].
  4:{ split; [right; eexists; split; reflexivity|].
      intros d [<-|[]]. cbn. exists arg, image. auto. }
  all: destruct (deletionDateInMS Date_parse (extracted arg) _ _)
         as [[ms|]|e] eqn:Hms;
       [ destruct (now >? ms)%Z eqn:Hnow;
         [ destruct (ParentNode.name (DirectiveNode.parent node))
             as [name|] eqn:Hname | ]
       | | ];
       (split;
        [ first [ left; reflexivity | right; eexists; split; reflexivity ]
        | intros d Hd; cbn in Hd;
          first [ contradiction
                | destruct Hd as [<-|[]]; cbn;
                  first [ exists arg, image, ms, name | exists arg, image ];
                  rewrite ?H1, ?H2;
                  repeat split; try assumption; try reflexivity; lia ] ]).
Qed.

(** C4. Once the date of the located argument has been resolved to an
    instant [ms]: if [ms] is strictly before [Date.now()] the listener
    makes, for a parent member that has a name, the
    [MESSAGE_CAN_BE_REMOVED] report, which carries one suggestion; if
    [ms] is at or after [Date.now()] it reports nothing. *)
Theorem eligibility (context : Context.t) (now ms : Z)
    (node : DirectiveNode.t ValueNode) (arg : ArgumentNode.t ValueNode)
    (image : string) :
  deletionDateNode context node = Some arg ->
  ToString (extracted arg) = Return image ->
  deletionDateInMS Date_parse (extracted arg)
    (test DATE_REGEX1 image) (test DATE_REGEX2 image) = Return (Some ms) ->
  ((ms < now)%Z ->
   forall name,
     ParentNode.name (DirectiveNode.parent node) = Some name ->
     exists d sg,
       run_listener context now node
       = {| reported := [d]; completion := Return tt |}
       /\ messageId d = MESSAGE_CAN_BE_REMOVED
       /\ suggest d = [sg])
  /\ ((now <= ms)%Z ->
       run_listener context now node
       = {| reported := []; completion := Return tt |}).
Proof.
  intros Hloc Hi Hms.
  pose proof (deletionDateInMS_returns _ _ _ _ Hms) as Hfmt.
  unfold listener. rewrite Hloc. cbv zeta. rewrite Hi, Hms.
  apply orb_true_iff in Hfmt.
  assert (negb (test DATE_REGEX1 image) && negb (test DATE_REGEX2 image)
          = false) as ->.
  { destruct Hfmt as [-> | ->]; cbn; [reflexivity | apply andb_false_r]. }
  split; intros Hcmp.
  - intros name Hname.
    assert ((now >? ms)%Z = true) as -> by lia.
    unfold suggest_removal. rewrite Hname.
    do 2 eexists. repeat split.
  - assert ((now >? ms)%Z = false) as -> by lia.
    reflexivity.
Qed.

(** C8. Every [MESSAGE_CAN_BE_REMOVED] report is on the parent
    member's name token and carries one suggestion, described as
    [Remove] followed by the member's name between backquotes, whose
    edit removes the whole range of the parent member. *)
Theorem can_be_removed_deletes_parent (context : Context.t) (now : Z)
    (directive : DirectiveNode.t ValueNode) (d : Report ValueNode) :
  In d (reported (run_listener context now directive)) ->
  messageId d = MESSAGE_CAN_BE_REMOVED ->
  exists name,
    ParentNode.name (DirectiveNode.parent directive) = Some name
    /\ node d = OnName name
    /\ suggest d
       = [ {| desc := "Remove `" ++ NameNode.value name ++ "`";
              edit := RemoveRange
                        (ParentNode.range (DirectiveNode.parent directive)) |} ].
Proof.
  unfold listener, suggest_removal.
  destruct (deletionDateNode context directive) as [arg|]; cbv zeta.
  2:{ intros [<-|[]]; discriminate. }
  destruct (ToString (extracted arg)) as [image|e]; [|intros []].
  destruct (negb _ && negb _).
  { intros [<-|[]]; discriminate. }
  destruct (deletionDateInMS _ _ _ _) as [[ms|]|e].
  - destruct (now >? ms)%Z; [|intros []].
    destruct (ParentNode.name (DirectiveNode.parent directive)) as [name|];
      [|intros []].
    intros [<-|[]] _. exists name. repeat split.
  - intros [<-|[]]; discriminate.
  - intros [].
Qed.

Lemma argName_configured (n : string) :
  n <> "" -> argName (with_argumentName n) = n.
Proof. destruct n; [contradiction | reflexivity]. Qed.

(** C9. The argument the listener locates is the one named as
    configured, ["deletionDate"] when nothing is configured.  With
    [argumentName] set to [n], the located argument is the first one
    named [n]; the listener asks for a date when no argument is named
    [n] and judges the value of the located one otherwise; arguments
    under any other name do not change the outcome, and in particular
    one under the old default name is ignored. *)
Theorem configurability (n : string) (now : Z)
    (node : DirectiveNode.t ValueNode) :
  n <> "" ->
  argName no_options = "deletionDate"
  /\ argName (with_argumentName n) = n
  /\ (forall arg,
        deletionDateNode (with_argumentName n) node = Some arg ->
        name_of arg = n
        /\ exists before after,
             DirectiveNode.arguments node = Some (before ++ arg :: after)
             /\ forall b, In b before -> name_of b <> n)
  /\ (forall args a,
        DirectiveNode.arguments node = Some args ->
        In a args -> name_of a = n ->
        exists arg, deletionDateNode (with_argumentName n) node = Some arg)
  /\ (forall before a after,
        name_of a <> n ->
        run_listener (with_argumentName n) now
          (with_arguments node (before ++ a :: after))
        = run_listener (with_argumentName n) now
            (with_arguments node (before ++ after)))
  /\ (n <> "deletionDate" ->
      forall before a after,
        name_of a = "deletionDate" ->
        run_listener (with_argumentName n) now
          (with_arguments node (before ++ a :: after))
        = run_listener (with_argumentName n) now
            (with_arguments node (before ++ after)))
  /\ ((forall args a, DirectiveNode.arguments node = Some args ->
                      In a args -> name_of a <> n) ->
      run_listener (with_argumentName n) now node
      = {| reported :=
             [ {| node := OnName (DirectiveNode.name node);
                  messageId := MESSAGE_REQUIRE_DATE;
                  data := [("nodeName",
                            VString (getNodeName (DirectiveNode.parent node)))];
                  suggest := [] |} ];
           completion := Return tt |})
  /\ (forall before a after s,
        name_of a = n ->
        (forall b, In b before -> name_of b <> n) ->
        extracted a = VString s ->
        Layout.A s = false -> Layout.B "/" s = false ->
        run_listener (with_argumentName n) now
          (with_arguments node (before ++ a :: after))
        = {| reported :=
               [ {| node := OnValue (ArgumentNode.value a);
                    messageId := MESSAGE_INVALID_FORMAT;
                    data := [("nodeName",
                              VString (getNodeName (DirectiveNode.parent node)))];
                    suggest := [] |} ];
             completion := Return tt |})
  /\ (forall before a after s,
        name_of a = n ->
        (forall b, In b before -> name_of b <> n) ->
        extracted a = VString s ->
        Layout.A s = true ->
        exists dd mm yyyy,
          s = (dd ++ "/" ++ mm ++ "/" ++ yyyy)%string
          /\ run_listener (with_argumentName n) now
               (with_arguments node (before ++ a :: after))
             = match Date_parse (yyyy ++ "-" ++ mm ++ "-" ++ dd) with
               | None =>
                   {| reported :=
                        [ {| node := OnValue (ArgumentNode.value a);
                             messageId := MESSAGE_INVALID_DATE;
                             data :=
                               [("deletionDate", VString s);
                                ("nodeName",
                                 VString (getNodeName (DirectiveNode.parent node)))];
                             suggest := [] |} ];
                      completion := Return tt |}
               | Some ms =>
                   if (now >? ms)%Z
                   then suggest_removal getNodeName node
                   else return_silently
               end).
Proof.
  intros Hn. pose proof (argName_configured n Hn) as Hcfg.
  assert (forall before a after,
            name_of a = n ->
            (forall b, In b before -> name_of b <> n) ->
            deletionDateNode (with_argumentName n)
              (with_arguments node (before ++ a :: after)) = Some a) as Hfirst.
  { intros before a after Ha Hb. unfold deletionDateNode, with_arguments.
    cbn [DirectiveNode.arguments]. rewrite Hcfg.
    apply find_stops_at_first.
    - apply String.eqb_eq. exact Ha.
    - intros y Hy. apply String.eqb_neq. exact (Hb y Hy). }
  split; [reflexivity|]. split; [exact Hcfg|].
  repeat match goal with |- _ /\ _ => split end.
  - intros arg. unfold deletionDateNode. rewrite Hcfg.
    destruct (DirectiveNode.arguments node) as [args|]; [|discriminate].
    intros H. apply find_first in H.
    destruct H as (before & after & -> & Heq & Hbefore).
    apply String.eqb_eq in Heq. split; [exact Heq|].
    exists before, after. split; [reflexivity|].
    intros b Hb. apply String.eqb_neq. exact (Hbefore b Hb).
  - intros args a Hargs Hin Ha. unfold deletionDateNode.
    rewrite Hcfg, Hargs.
    apply (find_finds _ args a Hin). apply String.eqb_eq. exact Ha.
  - intros before a after Ha.
    apply listener_skips_other_names. rewrite Hcfg. exact Ha.
  - intros Hd before a after Ha.
    apply listener_skips_other_names. rewrite Hcfg, Ha.
    intros E. apply Hd. symmetry. exact E.
  - intros Hnone. apply listener_nothing_located.
    apply nothing_located. rewrite Hcfg. exact Hnone.
  - intros before a after s Ha Hb Hv HA HB.
    rewrite (listener_no_layout (with_argumentName n) now
               (with_arguments node (before ++ a :: after)) a s);
      [reflexivity | exact (Hfirst before a after Ha Hb) | | exact HA | exact HB].
    rewrite Hv. reflexivity.
  - intros before a after s Ha Hb Hv HA.
    destruct (listener_layout_A (with_argumentName n) now
                (with_arguments node (before ++ a :: after)) a s
                (Hfirst before a after Ha Hb) Hv HA)
      as (dd & mm & yyyy & Heq & Hrun).
    exists dd, mm, yyyy. split; [exact Heq|].
    rewrite Hrun. reflexivity.
Qed.

(** C10. An empty [argumentName] is falsy: the listener then looks
    for ["deletionDate"], as it does without any option, and never
    for an argument with an empty name. *)
Theorem empty_argumentName_falls_back (now : Z)
    (node : DirectiveNode.t ValueNode) :
  argName (with_argumentName "") = "deletionDate"
  /\ argName no_options = "deletionDate"
  /\ argName empty_option = "deletionDate"
  /\ deletionDateNode (with_argumentName "") node
     = deletionDateNode no_options node
  /\ run_listener (with_argumentName "") now node
     = run_listener no_options now node
  /\ forall arg,
       deletionDateNode (with_argumentName "") node = Some arg ->
       name_of arg = "deletionDate".
Proof.
  repeat split; try reflexivity.
  intros arg H. apply located_is_named in H. exact (proj1 H).
Qed.

End RuleFacts.

(* ================================================================== *)
(** * The rule on concrete documents                                   *)
(* ================================================================== *)

Module Scenarios.
Import JS Sample.

(** [firstname: String @deprecated] *)
Example bare_directive :
  run no_options new_year_2023 (deprecated None)
  = report_and_return (require_date getNodeName (deprecated None)).
Proof. reflexivity. Qed.

(** [@deprecated(reason: "...", deletionDate: "25/12/2022")], linted
    on 1 January 2023. *)
Example past_date :
  run no_options new_year_2023
    (deprecated (Some [arg "reason" "Use 'firstName' instead";
                       arg "deletionDate" "25/12/2022"]))
  = {| reported :=
         [ {| node := OnName {| NameNode.value := "firstname";
                                NameNode.range := (14, 23) |};
              messageId := MESSAGE_CAN_BE_REMOVED;
              data := [("nodeName", VString "field `User.firstname`")];
              suggest := [ {| desc := "Remove `firstname`";
                              edit := RemoveRange (14, 60) |} ] |} ];
       completion := Return tt |}.
Proof. vm_compute. reflexivity. Qed.

(** [deletionDate: "31/02/2022"] *)
Example impossible_date :
  run no_options new_year_2023
    (deprecated (Some [arg "deletionDate" "31/02/2022"]))
  = {| reported :=
         [ {| node := OnValue "31/02/2022";
              messageId := MESSAGE_INVALID_DATE;
              data := [("deletionDate", VString "31/02/2022");
                       ("nodeName", VString "field `User.firstname`")];
              suggest := [] |} ];
       completion := Return tt |}.
Proof. vm_compute. reflexivity. Qed.

(** [deletionDate: "25/12/2099"] *)
Example future_date :
  run no_options new_year_2023
    (deprecated (Some [arg "deletionDate" "25/12/2099"]))
  = return_silently.
Proof. vm_compute. reflexivity. Qed.

(** The layout the message catalogue advertises as [YYYY-MM-DD] is
    not recognised by either pattern. *)
Example hyphenated_date :
  messageId_of_first
    (run no_options new_year_2023
       (deprecated (Some [arg "deletionDate" "2022-12-25"])))
  = Some MESSAGE_INVALID_FORMAT.
Proof. vm_compute. reflexivity. Qed.

End Scenarios.

(* ================================================================== *)
(** * The second layout: recognised with [/], split on [-]             *)
(* ================================================================== *)

(** C1. The specification has the listener never throw on an
    expected validation outcome, in particular on a value the second
    pattern recognises.  On [@deprecated(deletionDate: "2022/12/25")] the
    second pattern matches and the call ends in a [TypeError], with
    nothing reported, whatever the current time. *)
Theorem layout_B_value_throws :
  JS.test DATE_REGEX2 "2022/12/25" = true
  /\ forall now : Z,
       Sample.run no_options now
         (Sample.deprecated (Some [Sample.arg "deletionDate" "2022/12/25"]))
       = {| reported := []; completion := JS.Throw JS.TypeError |}.
Proof.
  split; [reflexivity|]. intros now.
  unfold Sample.run. rewrite create_on_deprecated by reflexivity.
  apply listener_layout_B
    with (arg := Sample.arg "deletionDate" "2022/12/25")
         (image := "2022/12/25"); reflexivity.
Qed.

(** C2. The specification has a string the second pattern accepts
    split on the separator the pattern tested for, into year, month
    and day.  ["2022/12/25"] is accepted, with [/] between its fields;
    the split is on [-], returns the string in one piece, and the
    destructuring leaves [month] and [day] undefined and puts the
    whole string in [year]. *)
Theorem layout_B_split_on_other_separator :
  JS.test DATE_REGEX1 "2022/12/25" = false
  /\ JS.test DATE_REGEX2 "2022/12/25" = true
  /\ JS.split "-" "2022/12/25" = ["2022/12/25"]
  /\ day_month_year (JS.VString "2022/12/25")
       (JS.test DATE_REGEX1 "2022/12/25") (JS.test DATE_REGEX2 "2022/12/25")
     = JS.Return (None, None, Some "2022/12/25")
  /\ JS.split "/" "2022/12/25" = ["2022"; "12"; "25"].
Proof. repeat split; reflexivity. Qed.

(** C7. The specification has every string in an accepted layout
    that encodes an impossible date reported as
    [MESSAGE_INVALID_DATE].
    ["2022/13/45"] is in Layout B and has month 13; the listener
    throws a [TypeError] on it and reports nothing. *)
Theorem impossible_date_in_layout_B_throws :
  Layout.B "/" "2022/13/45" = true
  /\ Sample.Date_parse "2022-13-45" = None
  /\ forall now : Z,
       Sample.run no_options now
         (Sample.deprecated (Some [Sample.arg "deletionDate" "2022/13/45"]))
       = {| reported := []; completion := JS.Throw JS.TypeError |}.
Proof.
  split; [reflexivity|]. split; [reflexivity|]. intros now.
  unfold Sample.run. rewrite create_on_deprecated by reflexivity.
  apply listener_layout_B
    with (arg := Sample.arg "deletionDate" "2022/13/45")
         (image := "2022/13/45"); reflexivity.
Qed.

(* ================================================================== *)
(** * The theorems at concrete inputs                                  *)
(* ================================================================== *)

Lemma require_date_when_argument_missing_witness :
  Sample.run no_options Sample.new_year_2023
    (Sample.deprecated (Some [Sample.arg "reason" "Use 'firstName' instead"]))
  = {| reported :=
         [ {| node := OnName {| NameNode.value := "deprecated";
                                NameNode.range := (33, 43) |};
              messageId := MESSAGE_REQUIRE_DATE;
              data := [("nodeName", JS.VString "field `User.firstname`")];
              suggest := [] |} ];
       completion := JS.Return tt |}.
Proof.
  apply (require_date_when_argument_missing
           Sample.ValueNode Sample.valueFromNode Sample.getNodeName Sample.Date_parse
           no_options Sample.new_year_2023
           (Sample.deprecated
              (Some [Sample.arg "reason" "Use 'firstName' instead"]))).
  - reflexivity.
  - intros args a Hargs Hin. injection Hargs as <-.
    destruct Hin as [<-|[]]. vm_compute. discriminate.
Defined.

Lemma invalid_format_when_no_layout_witness :
  Layout.A "25-12-2022" = false
  /\ Layout.B "/" "25-12-2022" = false
  /\ listener Sample.valueFromNode Sample.getNodeName Sample.Date_parse
       no_options Sample.new_year_2023
       (Sample.deprecated (Some [Sample.arg "deletionDate" "25-12-2022"]))
     = {| reported :=
            [ {| node := OnValue "25-12-2022";
                 messageId := MESSAGE_INVALID_FORMAT;
                 data := [("nodeName", JS.VString "field `User.firstname`")];
                 suggest := [] |} ];
          completion := JS.Return tt |}.
Proof.
  split; [reflexivity|]. split; [reflexivity|].
  apply (invalid_format_when_no_layout
           Sample.ValueNode Sample.valueFromNode Sample.getNodeName Sample.Date_parse
           no_options Sample.new_year_2023
           (Sample.deprecated (Some [Sample.arg "deletionDate" "25-12-2022"]))
           (Sample.arg "deletionDate" "25-12-2022") "25-12-2022");
    reflexivity.
Defined.

Lemma one_diagnostic_in_strict_order_witness :
  reported
    (listener Sample.valueFromNode Sample.getNodeName Sample.Date_parse
       no_options Sample.new_year_2023
       (Sample.deprecated (Some [Sample.arg "deletionDate" "25/12/2022"])))
  = []
  \/ exists d,
       reported
         (listener Sample.valueFromNode Sample.getNodeName Sample.Date_parse
            no_options Sample.new_year_2023
            (Sample.deprecated (Some [Sample.arg "deletionDate" "25/12/2022"])))
       = [d]
       /\ completion
            (listener Sample.valueFromNode Sample.getNodeName Sample.Date_parse
               no_options Sample.new_year_2023
               (Sample.deprecated (Some [Sample.arg "deletionDate" "25/12/2022"])))
          = JS.Return tt.
Proof.
  exact (proj1 (one_diagnostic_in_strict_order
                  Sample.ValueNode Sample.valueFromNode Sample.getNodeName Sample.Date_parse
                  no_options Sample.new_year_2023
                  (Sample.deprecated
                     (Some [Sample.arg "deletionDate" "25/12/2022"])))).
Defined.

Lemma eligibility_witness :
  ((1671926400000 < Sample.new_year_2023)%Z ->
     exists d sg,
       listener Sample.valueFromNode Sample.getNodeName Sample.Date_parse
         no_options Sample.new_year_2023
         (Sample.deprecated (Some [Sample.arg "deletionDate" "25/12/2022"]))
       = {| reported := [d]; completion := JS.Return tt |}
       /\ messageId d = MESSAGE_CAN_BE_REMOVED
       /\ suggest d = [sg])
  /\ ((Sample.new_year_2023 <= 1671926400000)%Z ->
       listener Sample.valueFromNode Sample.getNodeName Sample.Date_parse
         no_options Sample.new_year_2023
         (Sample.deprecated (Some [Sample.arg "deletionDate" "25/12/2022"]))
       = {| reported := []; completion := JS.Return tt |}).
Proof.
  destruct (eligibility
              Sample.ValueNode Sample.valueFromNode Sample.getNodeName
              Sample.Date_parse
              no_options Sample.new_year_2023 1671926400000%Z
              (Sample.deprecated (Some [Sample.arg "deletionDate" "25/12/2022"]))
              (Sample.arg "deletionDate" "25/12/2022") "25/12/2022"
              eq_refl eq_refl eq_refl) as [Hpast Hfuture].
  split; [|exact Hfuture].
  intros Hlt.
  exact (Hpast Hlt
           {| NameNode.value := "firstname"; NameNode.range := (14, 23) |}
           eq_refl).
Defined.

Lemma can_be_removed_deletes_parent_witness :
  exists name,
    ParentNode.name Sample.firstname = Some name
    /\ node (can_be_removed Sample.getNodeName
               (Sample.deprecated (Some [Sample.arg "deletionDate" "25/12/2022"]))
               {| NameNode.value := "firstname"; NameNode.range := (14, 23) |})
       = OnName name
    /\ suggest (can_be_removed Sample.getNodeName
                  (Sample.deprecated (Some [Sample.arg "deletionDate" "25/12/2022"]))
                  {| NameNode.value := "firstname"; NameNode.range := (14, 23) |})
       = [ {| desc := "Remove `" ++ NameNode.value name ++ "`";
              edit := RemoveRange (14, 60) |} ].
Proof.
  apply (can_be_removed_deletes_parent
           Sample.ValueNode Sample.valueFromNode Sample.getNodeName Sample.Date_parse
           no_options Sample.new_year_2023
           (Sample.deprecated (Some [Sample.arg "deletionDate" "25/12/2022"]))
           (can_be_removed Sample.getNodeName
              (Sample.deprecated (Some [Sample.arg "deletionDate" "25/12/2022"]))
              {| NameNode.value := "firstname"; NameNode.range := (14, 23) |})).
  - left. vm_compute. reflexivity.
  - reflexivity.
Defined.

Lemma configurability_witness :
  argName (with_argumentName "removeAfter") = "removeAfter"
  /\ listener Sample.valueFromNode Sample.getNodeName Sample.Date_parse
       (with_argumentName "removeAfter") Sample.new_year_2023
       (Sample.deprecated (Some [Sample.arg "deletionDate" "25/12/2022"]))
     = {| reported :=
            [ {| node := OnName {| NameNode.value := "deprecated";
                                   NameNode.range := (33, 43) |};
                 messageId := MESSAGE_REQUIRE_DATE;
                 data := [("nodeName", JS.VString "field `User.firstname`")];
                 suggest := [] |} ];
          completion := JS.Return tt |}
  /\ listener Sample.valueFromNode Sample.getNodeName Sample.Date_parse
       (with_argumentName "removeAfter") Sample.new_year_2023
       (with_arguments
          (Sample.deprecated (Some [Sample.arg "deletionDate" "25/12/2022"]))
          ([Sample.arg "deletionDate" "25/12/2099"]
           ++ Sample.arg "removeAfter" "25-12-2022" :: []))
     = {| reported :=
            [ {| node := OnValue "25-12-2022";
                 messageId := MESSAGE_INVALID_FORMAT;
                 data := [("nodeName", JS.VString "field `User.firstname`")];
                 suggest := [] |} ];
          completion := JS.Return tt |}
  /\ listener Sample.valueFromNode Sample.getNodeName Sample.Date_parse
       (with_argumentName "removeAfter") Sample.new_year_2023
       (with_arguments
          (Sample.deprecated (Some [Sample.arg "deletionDate" "25/12/2022"]))
          ([] ++ Sample.arg "deletionDate" "25/12/2022" :: []))
     = listener Sample.valueFromNode Sample.getNodeName Sample.Date_parse
         (with_argumentName "removeAfter") Sample.new_year_2023
         (with_arguments
            (Sample.deprecated (Some [Sample.arg "deletionDate" "25/12/2022"]))
            ([] ++ [])).
Proof.
  pose proof (configurability
                Sample.ValueNode Sample.valueFromNode Sample.getNodeName
                Sample.Date_parse
                "removeAfter" Sample.new_year_2023
                (Sample.deprecated (Some [Sample.arg "deletionDate" "25/12/2022"]))
                ltac:(discriminate))
    as (_ & Hname & _ & _ & _ & Hold & Hnone & Hformat & _).
  split; [exact Hname|]. split; [|split].
  - apply Hnone. intros args a Hargs Hin. injection Hargs as <-.
    destruct Hin as [<-|[]]. vm_compute. discriminate.
  - apply (Hformat [Sample.arg "deletionDate" "25/12/2099"]
             (Sample.arg "removeAfter" "25-12-2022") [] "25-12-2022");
      try reflexivity.
    intros b [<-|[]]. vm_compute. discriminate.
  - apply Hold; [discriminate | reflexivity].
Defined.

(* ================================================================== *)
(** * Further properties of the patterns and of the listener           *)
(* ================================================================== *)

Ltac digits_are_not_separators :=
  cbn;
  repeat match goal with
         | E : JS.is_digit ?c = true |- context [Ascii.eqb ?c "/"] =>
             rewrite (JSFacts.digit_is_not_slash c E); cbn
         | E : JS.is_digit ?c = true |- context [Ascii.eqb ?c "-"] =>
             rewrite (JSFacts.digit_is_not_hyphen c E); cbn
         end.

(** A string in the hyphenated layout is in neither layout the
    patterns recognise. *)
Lemma hyphenated_is_unrecognised (s : string) :
  Layout.B "-" s = true -> Layout.A s = false /\ Layout.B "/" s = false.
Proof.
  intros H. layout_chars s H.
  repeat match goal with
         | E : Ascii.eqb ?c "-" = true |- _ =>
             apply Ascii.eqb_eq in E; subst c
         end.
  cbn. digits_are_not_separators.
  rewrite !andb_false_r. split; reflexivity.
Qed.

(** The fields of a string in Layout A, and the canonical string
    built from them. *)
Lemma layout_A_canonical (s : string) :
  Layout.A s = true ->
  exists dd mm yyyy,
    s = (dd ++ "/" ++ mm ++ "/" ++ yyyy)%string
    /\ JS.split "/" s = [dd; mm; yyyy]
    /\ String.length dd = 2 /\ String.length mm = 2
    /\ Layout.B "-" (yyyy ++ "-" ++ mm ++ "-" ++ dd) = true.
Proof.
  intros H. layout_chars s H.
  repeat match goal with
         | E : Ascii.eqb ?c "/" = true |- _ =>
             apply Ascii.eqb_eq in E; subst c
         end.
  match goal with
  | |- context [String ?d1 (String ?d2 (String "/" (String ?m1 (String ?m2
         (String "/" ?y))))) ] =>
      exists (String d1 (String d2 EmptyString)),
             (String m1 (String m2 EmptyString)), y
  end.
  cbn. digits_are_not_separators.
  repeat match goal with
         | E : JS.is_digit ?c = true |- _ => rewrite E; clear E
         end.
  repeat split; reflexivity.
Qed.

(** With the two field widths given, the split of a Layout A string
    returns the fields it was written with. *)
Lemma layout_A_fields (dd mm yyyy : string) :
  Layout.A (dd ++ "/" ++ mm ++ "/" ++ yyyy) = true ->
  String.length dd = 2 -> String.length mm = 2 ->
  JS.split "/" (dd ++ "/" ++ mm ++ "/" ++ yyyy) = [dd; mm; yyyy].
Proof.
  intros H Hd Hm.
  destruct dd as [|d1 [|d2 [|? ?]]]; try discriminate Hd.
  destruct mm as [|m1 [|m2 [|? ?]]]; try discriminate Hm.
  cbn in H |- *.
  do 4 (destruct yyyy as [|? yyyy]; [discriminate H|]).
  destruct yyyy; [|discriminate H].
  repeat match type of H with
         | (_ && _ = true) =>
             let H' := fresh "D" in
             apply andb_prop in H; destruct H as [H H']
         end.
  digits_are_not_separators. reflexivity.
Qed.

(** X1. A string accepted by either pattern has exactly ten
    characters, each a digit or a slash, and is accepted by one
    pattern only. *)
Theorem accepted_strings_shape (s : string) :
  JS.test DATE_REGEX1 s || JS.test DATE_REGEX2 s = true ->
  String.length s = 10
  /\ Forall (fun c => JS.is_digit c = true \/ c = "/"%char) (chars s)
  /\ JS.test DATE_REGEX1 s && JS.test DATE_REGEX2 s = false.
Proof.
  rewrite DATE_REGEX1_is_layout_A, DATE_REGEX2_is_layout_B.
  intros H. apply orb_true_iff in H.
  assert (Layout.A s && Layout.B "/" s = false) as Hx.
  { destruct (Layout.B "/" s) eqn:HB.
    - rewrite (layouts_disjoint s HB). reflexivity.
    - apply andb_false_r. }
  destruct H as [H|H]; layout_chars s H;
    repeat match goal with
           | E : Ascii.eqb ?c "/" = true |- _ =>
               apply Ascii.eqb_eq in E; subst c
           end;
    (split; [reflexivity|]); (split; [|exact Hx]);
    cbn;
    repeat (apply Forall_cons;
            [first [left; assumption | right; reflexivity]|]);
    apply Forall_nil.
Qed.


Section ListenerBehaviour.

Import JS.

Variable ValueNode : Type.
Variable valueFromNode : ValueNode -> Value.
Variable getNodeName : ParentNode.t -> string.
Variable Date_parse : string -> option Z.

Local Abbreviation run_listener := (listener valueFromNode getNodeName Date_parse).
Local Abbreviation extracted arg := (valueFromNode (ArgumentNode.value arg)).
Local Abbreviation name_of arg := (NameNode.value (ArgumentNode.name arg)).

(** A value without [split] stops at line 112 or 114. *)
Lemma deletionDateInMS_non_string (v : Value) (b1 b2 : bool) :
  (forall s, v <> VString s) ->
  deletionDateInMS Date_parse v b1 b2 = Throw TypeError.
Proof.
  intros Hv. destruct v as [s|c|]; [now elim (Hv s)| |];
    destruct b1, b2; reflexivity.
Qed.

(** X2. The message catalogue announces the layout [YYYY-MM-DD]; a
    string written that way, with hyphens, is reported with
    [MESSAGE_INVALID_FORMAT]. *)
Theorem hyphenated_layout_is_rejected (context : Context.t) (now : Z)
    (node : DirectiveNode.t ValueNode) (arg : ArgumentNode.t ValueNode)
    (s : string) :
  deletionDateNode context node = Some arg ->
  extracted arg = VString s ->
  Layout.B "-" s = true ->
  run_listener context now node
  = report_and_return (invalid_format getNodeName node arg).
Proof.
  intros Hloc Hv H. destruct (hyphenated_is_unrecognised s H) as [HA HB].
  unfold listener. rewrite Hloc. cbv zeta. rewrite Hv. cbn [ToString].
  rewrite DATE_REGEX1_is_layout_A, DATE_REGEX2_is_layout_B, HA, HB.
  reflexivity.
Qed.

(** X3. On a string [dd/mm/yyyy] in Layout A the listener asks
    [Date.parse] about [yyyy-mm-dd], the fields in reverse order and
    unchanged by the padding, and goes by the answer: [NaN] is an
    invalid date; an instant before now can be removed, which is
    reported when the parent has a name and ends in a [TypeError]
    when it has none; any other instant is passed in silence. *)
Theorem layout_A_resolution (context : Context.t) (now : Z)
    (node : DirectiveNode.t ValueNode) (arg : ArgumentNode.t ValueNode)
    (dd mm yyyy : string) :
  deletionDateNode context node = Some arg ->
  extracted arg = VString (dd ++ "/" ++ mm ++ "/" ++ yyyy) ->
  Layout.A (dd ++ "/" ++ mm ++ "/" ++ yyyy) = true ->
  String.length dd = 2 -> String.length mm = 2 ->
  run_listener context now node
  = match Date_parse (yyyy ++ "-" ++ mm ++ "-" ++ dd) with
    | None =>
        report_and_return
          (invalid_date getNodeName node arg
             (VString (dd ++ "/" ++ mm ++ "/" ++ yyyy)))
    | Some ms =>
        if (now >? ms)%Z
        then match ParentNode.name (DirectiveNode.parent node) with
             | Some name =>
                 report_and_return (can_be_removed getNodeName node name)
             | None => throw TypeError
             end
        else return_silently
    end.
Proof.
  intros Hloc Hv HA Hd Hm.
  pose proof (layout_A_fields dd mm yyyy HA Hd Hm) as Hsplit.
  unfold listener, suggest_removal. rewrite Hloc. cbv zeta.
  rewrite Hv. cbn [ToString].
  rewrite DATE_REGEX1_is_layout_A, HA. cbn [negb andb].
  unfold deletionDateInMS, day_month_year.
  cbn [call_split bind]. rewrite Hsplit.
  cbn [nth_error bind call_padStart interpolate].
  unfold padStart. rewrite Hd, Hm. cbn [Nat.sub replicate].
  destruct (Date_parse _) as [ms|]; [|reflexivity].
  destruct (now >? ms)%Z; [|reflexivity].
  destruct (ParentNode.name (DirectiveNode.parent node)); reflexivity.
Qed.

(** X4. [Date.parse] is reached only from a string in Layout A, and
    what it is given is always four digits, a hyphen, two digits, a
    hyphen, two digits. *)
Theorem Date_parse_sees_canonical_dates (v : Value) (image : string)
    (r : option Z) :
  ToString v = Return image ->
  deletionDateInMS Date_parse v
    (test DATE_REGEX1 image) (test DATE_REGEX2 image)
  = Return r ->
  exists dd mm yyyy,
    v = VString (dd ++ "/" ++ mm ++ "/" ++ yyyy)
    /\ Layout.A (dd ++ "/" ++ mm ++ "/" ++ yyyy) = true
    /\ Layout.B "-" (yyyy ++ "-" ++ mm ++ "-" ++ dd) = true
    /\ r = Date_parse (yyyy ++ "-" ++ mm ++ "-" ++ dd).
Proof.
  intros Hi H.
  destruct (test DATE_REGEX1 image) eqn:H1.
  - destruct v as [s|c|]; [|discriminate H|discriminate H].
    injection Hi as <-.
    rewrite DATE_REGEX1_is_layout_A in H1.
    destruct (layout_A_canonical s H1)
      as (dd & mm & yyyy & Heq & Hsplit & Hd & Hm & Hiso).
    exists dd, mm, yyyy. rewrite <- Heq.
    split; [reflexivity|]. split; [exact H1|]. split; [exact Hiso|].
    unfold deletionDateInMS, day_month_year in H.
    cbn [call_split bind] in H. rewrite Hsplit in H.
    cbn [nth_error bind call_padStart interpolate] in H.
    unfold padStart in H. rewrite Hd, Hm in H. cbn in H.
    injection H as <-. reflexivity.
  - destruct (test DATE_REGEX2 image) eqn:H2.
    + pose proof (deletionDateInMS_layout_B Date_parse v image Hi H2) as E.
      rewrite H1, H2 in E. rewrite E in H. discriminate H.
    + discriminate H.
Qed.

(** X5. The listener throws exactly when it has located an argument
    and one of these holds: the value has no string image; the second
    pattern accepts the image; the first pattern accepts the image of
    a value that is not a string; the date is resolved to an instant
    before now and the parent has no name. *)
Theorem throws_exactly_when (context : Context.t) (now : Z)
    (node : DirectiveNode.t ValueNode) :
  completion (run_listener context now node) = Throw TypeError
  <-> exists arg,
        deletionDateNode context node = Some arg
        /\ (ToString (extracted arg) = Throw TypeError
            \/ exists image,
                 ToString (extracted arg) = Return image
                 /\ (test DATE_REGEX2 image = true
                     \/ (test DATE_REGEX1 image = true
                         /\ forall s, extracted arg <> VString s)
                     \/ exists ms,
                          deletionDateInMS Date_parse (extracted arg)
                            (test DATE_REGEX1 image) (test DATE_REGEX2 image)
                          = Return (Some ms)
                          /\ (ms < now)%Z
                          /\ ParentNode.name (DirectiveNode.parent node)
                             = None)).
Proof.
  unfold listener, suggest_removal.
  destruct (deletionDateNode context node) as [arg|]; cbv zeta.
  2:{ split; [discriminate | intros (a & E & _); discriminate E]. }
  destruct (ToString (extracted arg)) as [image|[]] eqn:Hi.
  2:{ split; [|reflexivity]. intros _. exists arg. auto. }
  pose (Q := test DATE_REGEX2 image = true
             \/ (test DATE_REGEX1 image = true
                 /\ forall s, extracted arg <> VString s)
             \/ exists ms,
                  deletionDateInMS Date_parse (extracted arg)
                    (test DATE_REGEX1 image) (test DATE_REGEX2 image)
                  = Return (Some ms)
                  /\ (ms < now)%Z
                  /\ ParentNode.name (DirectiveNode.parent node) = None).
  match goal with
  | |- ?L <-> _ => assert (L <-> Q) as Hcore
  end.
  2:{ rewrite Hcore. unfold Q. split.
      - intros H. exists arg. split; [reflexivity|]. right.
        exists image. split; [exact Hi | exact H].
      - intros (a & [= <-] & [E | (i & Hi' & H)]).
        + rewrite Hi in E. discriminate E.
        + rewrite Hi in Hi'. injection Hi' as <-. exact H. }
  unfold Q. clear Q.
  destruct (test DATE_REGEX2 image) eqn:H2.
  { pose proof (deletionDateInMS_layout_B Date_parse _ _ Hi H2) as E.
    rewrite H2 in E. rewrite E, andb_false_r. cbn.
    split; [intros _; left; reflexivity | reflexivity]. }
  destruct (test DATE_REGEX1 image) eqn:H1; cbn [negb andb].
  2:{ rewrite deletionDateInMS_no_layout. cbn. split; [discriminate|].
      intros [E | [[E _] | (ms & E & _)]]; discriminate E. }
  destruct (extracted arg) as [s|c|] eqn:Hv; cbn [ToString] in Hi.
  - injection Hi as <-. rewrite DATE_REGEX1_is_layout_A in H1.
    destruct (deletionDateInMS_layout_A Date_parse s false H1)
      as (dd & mm & yyyy & _ & E).
    rewrite E.
    destruct (Date_parse _) as [ms|].
    + destruct (now >? ms)%Z eqn:Hnow.
      * destruct (ParentNode.name (DirectiveNode.parent node)) as [name|].
        -- cbn. split; [discriminate|].
           intros [F | [[_ F] | (ms' & _ & _ & F)]];
             [discriminate F | now elim (F s) | discriminate F].
        -- cbn. split; [|reflexivity]. intros _. right. right.
           exists ms. repeat split. lia.
      * cbn. split; [discriminate|].
        intros [F | [[_ F] | (ms' & [= <-] & F & _)]];
          [discriminate F | now elim (F s) | lia].
    + cbn. split; [discriminate|].
      intros [F | [[_ F] | (ms' & F & _)]];
        [discriminate F | now elim (F s) | discriminate F].
  - rewrite deletionDateInMS_non_string by discriminate. cbn.
    split; [|reflexivity]. intros _. right. left.
    split; [reflexivity | discriminate].
  - discriminate Hi.
Qed.

(** X6. A value that is not a string is never resolved to a date: the
    listener throws when the value has no string image or when one of
    the patterns accepts its image, and reports
    [MESSAGE_INVALID_FORMAT] otherwise. *)
Theorem non_string_value_never_resolves (context : Context.t) (now : Z)
    (node : DirectiveNode.t ValueNode) (arg : ArgumentNode.t ValueNode) :
  deletionDateNode context node = Some arg ->
  (forall s, extracted arg <> VString s) ->
  run_listener context now node
  = match ToString (extracted arg) with
    | Throw e => throw e
    | Return image =>
        if test DATE_REGEX1 image || test DATE_REGEX2 image
        then throw TypeError
        else report_and_return (invalid_format getNodeName node arg)
    end.
Proof.
  intros Hloc Hv. unfold listener. rewrite Hloc. cbv zeta.
  destruct (ToString (extracted arg)) as [image|e]; [|reflexivity].
  rewrite (deletionDateInMS_non_string _ _ _ Hv).
  destruct (test DATE_REGEX1 image), (test DATE_REGEX2 image); reflexivity.
Qed.

(** X7. The verdict is monotone in time: a directive reported as
    removable stays so, with the same report, at every later time,
    and one passed in silence was passed in silence at every earlier
    time. *)
Theorem removable_from_then_on (context : Context.t) (now later : Z)
    (node : DirectiveNode.t ValueNode) :
  (now <= later)%Z ->
  (messageId_of_first (run_listener context now node)
     = Some MESSAGE_CAN_BE_REMOVED ->
   run_listener context later node = run_listener context now node)
  /\ (run_listener context later node = return_silently ->
      run_listener context now node = return_silently).
Proof.
  intros Hle. unfold listener, suggest_removal.
  destruct (deletionDateNode context node) as [arg|]; cbv zeta.
  2:{ split; discriminate. }
  destruct (ToString (extracted arg)) as [image|e]; [|split; discriminate].
  destruct (negb _ && negb _).
  { split; discriminate. }
  destruct (deletionDateInMS _ _ _ _) as [[ms|]|e];
    [|split; discriminate|split; discriminate].
  destruct (ParentNode.name (DirectiveNode.parent node)) as [name|];
    destruct (now >? ms)%Z eqn:Hn, (later >? ms)%Z eqn:Hl;
    split; intros H; try reflexivity; try discriminate H; lia.
Qed.

(** X8. Only the removable verdict and the read of the parent's name
    depend on the clock.  A report of one of the three other kinds is
    made again, identically, at any other time; a call that throws
    throws again at any later time, and at any time at all when the
    parent has a name. *)
Theorem other_outcomes_ignore_the_clock (context : Context.t)
    (now other : Z) (node : DirectiveNode.t ValueNode) :
  ((exists d, reported (run_listener context now node) = [d]
              /\ messageId d <> MESSAGE_CAN_BE_REMOVED)
   \/ (completion (run_listener context now node) = Throw TypeError
       /\ ((now <= other)%Z
           \/ exists name,
                ParentNode.name (DirectiveNode.parent node) = Some name))) ->
  run_listener context other node = run_listener context now node.
Proof.
  unfold listener, suggest_removal.
  destruct (deletionDateNode context node) as [arg|]; cbv zeta;
    [|reflexivity].
  destruct (ToString (extracted arg)) as [image|e]; [|reflexivity].
  destruct (negb _ && negb _); [reflexivity|].
  destruct (deletionDateInMS _ _ _ _) as [[ms|]|e];
    [|reflexivity|reflexivity].
  destruct (ParentNode.name (DirectiveNode.parent node)) as [name|];
    destruct (now >? ms)%Z eqn:Hn; cbn.
  - intros [(d & [= <-] & H) | [H _]]; [|discriminate H].
    exfalso. apply H. reflexivity.
  - intros [(d & H & _) | [H _]]; discriminate H.
  - intros [(d & H & _) | [_ [H | (name & H)]]];
      [discriminate H | | discriminate H].
    assert ((other >? ms)%Z = true) as -> by lia. reflexivity.
  - intros [(d & H & _) | [H _]]; discriminate H.
Qed.

(** X9. [find] stops at the first argument named as configured:
    whatever follows it, even under the same name, and whatever
    differently named arguments precede it, the outcome is the one for
    that argument alone. *)
Theorem later_arguments_are_ignored (context : Context.t) (now : Z)
    (node : DirectiveNode.t ValueNode)
    (before after : list (ArgumentNode.t ValueNode))
    (a : ArgumentNode.t ValueNode) :
  name_of a = argName context ->
  (forall b, In b before -> name_of b <> argName context) ->
  run_listener context now (with_arguments node (before ++ a :: after))
  = run_listener context now (with_arguments node [a]).
Proof.
  intros Ha Hb.
  assert (forall l, l = before ++ a :: after \/ l = [a] ->
            deletionDateNode context (with_arguments node l) = Some a) as Hloc.
  { intros l Hl. unfold deletionDateNode, with_arguments. cbn.
    destruct Hl as [-> | ->].
    - apply find_stops_at_first.
      + apply String.eqb_eq. exact Ha.
      + intros y Hy. apply String.eqb_neq. exact (Hb y Hy).
    - cbn. apply String.eqb_eq in Ha. rewrite Ha. reflexivity. }
  unfold listener.
  rewrite (Hloc _ (or_introl eq_refl)), (Hloc _ (or_intror eq_refl)).
  reflexivity.
Qed.

(** X10. Every report fills its message: the keys of its [data] are
    the placeholders of the template registered under its
    [messageId], in the same order, and [nodeName] is the label of the
    member the directive is attached to. *)
Theorem data_fills_placeholders (context : Context.t) (now : Z)
    (directive : DirectiveNode.t ValueNode) (d : Report ValueNode) :
  In d (reported (run_listener context now directive)) ->
  data_keys d = ESLint.placeholders (Meta.messages (messageId d))
  /\ In ("nodeName", VString (getNodeName (DirectiveNode.parent directive)))
        (data d).
Proof.
  unfold listener, suggest_removal.
  destruct (deletionDateNode context directive) as [arg|]; cbv zeta.
  2:{ intros [<-|[]]. split; [reflexivity | left; reflexivity]. }
  destruct (ToString (extracted arg)) as [image|e]; [|intros []].
  destruct (negb _ && negb _).
  { intros [<-|[]]. split; [reflexivity | left; reflexivity]. }
  destruct (deletionDateInMS _ _ _ _) as [[ms|]|e].
  - destruct (now >? ms)%Z; [|intros []].
    destruct (ParentNode.name (DirectiveNode.parent directive)) as [name|];
      [|intros []].
    intros [<-|[]]. split; [reflexivity | left; reflexivity].
  - intros [<-|[]]. split; [reflexivity | right; left; reflexivity].
  - intros [].
Qed.

(** X11. A report offers a suggestion exactly when it is a
    [MESSAGE_CAN_BE_REMOVED] report: the three other kinds never
    propose an edit. *)
Theorem suggestion_only_when_removable (context : Context.t) (now : Z)
    (directive : DirectiveNode.t ValueNode) (d : Report ValueNode) :
  In d (reported (run_listener context now directive)) ->
  (suggest d <> [] <-> messageId d = MESSAGE_CAN_BE_REMOVED).
Proof.
  unfold listener, suggest_removal.
  destruct (deletionDateNode context directive) as [arg|]; cbv zeta.
  2:{ intros [<-|[]]. cbn. split; [intros H; now elim H | discriminate]. }
  destruct (ToString (extracted arg)) as [image|e]; [|intros []].
  destruct (negb _ && negb _).
  { intros [<-|[]]. cbn. split; [intros H; now elim H | discriminate]. }
  destruct (deletionDateInMS _ _ _ _) as [[ms|]|e].
  - destruct (now >? ms)%Z; [|intros []].
    destruct (ParentNode.name (DirectiveNode.parent directive)) as [name|];
      [|intros []].
    intros [<-|[]]. cbn. split; [reflexivity | discriminate].
  - intros [<-|[]]. cbn. split; [intros H; now elim H | discriminate].
  - intros [].
Qed.

(** X12. The name the listener searches for is never empty, whatever
    the options, and only the first option object is read; so an
    argument with an empty name is never located. *)
Theorem argument_name_never_empty (context : Context.t) :
  argName context <> ""
  /\ (forall o rest,
        Context.options context = o :: rest ->
        argName context = argName {| Context.options := [o] |})
  /\ (forall (node : DirectiveNode.t ValueNode) arg,
        deletionDateNode context node = Some arg -> name_of arg <> "").
Proof.
  assert (argName context <> "") as Hne.
  { unfold argName.
    destruct (nth_error (Context.options context) 0) as [o|];
      [destruct o as [[n|]]; [destruct n|]|]; discriminate. }
  split; [exact Hne|]. split.
  - intros o rest E. unfold argName. rewrite E. reflexivity.
  - intros node arg H. apply (located_is_named ValueNode) in H.
    destruct H as [-> _]. exact Hne.
Qed.

(** X13. Under a parent without a name, a date resolved to an instant
    before now makes the listener throw at the read of
    [parent.name.value], before any report; at or after now the same
    directive is passed in silence. *)
Theorem nameless_parent_throws_when_removable (context : Context.t)
    (now ms : Z) (node : DirectiveNode.t ValueNode)
    (arg : ArgumentNode.t ValueNode) (image : string) :
  deletionDateNode context node = Some arg ->
  ToString (extracted arg) = Return image ->
  deletionDateInMS Date_parse (extracted arg)
    (test DATE_REGEX1 image) (test DATE_REGEX2 image) = Return (Some ms) ->
  ParentNode.name (DirectiveNode.parent node) = None ->
  ((ms < now)%Z -> run_listener context now node = throw TypeError)
  /\ ((now <= ms)%Z -> run_listener context now node = return_silently).
Proof.
  intros Hloc Hi Hms Hname.
  pose proof (deletionDateInMS_returns _ _ _ _ _ Hms) as Hfmt.
  unfold listener, suggest_removal. rewrite Hloc. cbv zeta.
  rewrite Hi, Hms, Hname.
  apply orb_true_iff in Hfmt.
  assert (negb (test DATE_REGEX1 image) && negb (test DATE_REGEX2 image)
          = false) as ->.
  { destruct Hfmt as [-> | ->]; cbn; [reflexivity | apply andb_false_r]. }
  split; intros Hcmp.
  - assert ((now >? ms)%Z = true) as -> by lia. reflexivity.
  - assert ((now >? ms)%Z = false) as -> by lia. reflexivity.
Qed.

End ListenerBehaviour.

(* ================================================================== *)
(** * The further properties at concrete inputs                        *)
(* ================================================================== *)

Lemma accepted_strings_shape_witness :
  String.length "25/12/2022" = 10
  /\ Forall (fun c => JS.is_digit c = true \/ c = "/"%char) (chars "25/12/2022")
  /\ JS.test DATE_REGEX1 "25/12/2022" && JS.test DATE_REGEX2 "25/12/2022" = false.
Proof.
  apply (accepted_strings_shape "25/12/2022"). reflexivity.
Defined.

Lemma hyphenated_layout_is_rejected_witness :
  listener Sample.valueFromNode Sample.getNodeName Sample.Date_parse
    no_options Sample.new_year_2023
    (Sample.deprecated (Some [Sample.arg "deletionDate" "2022-12-25"]))
  = report_and_return
      (invalid_format Sample.getNodeName
         (Sample.deprecated (Some [Sample.arg "deletionDate" "2022-12-25"]))
         (Sample.arg "deletionDate" "2022-12-25")).
Proof.
  apply (hyphenated_layout_is_rejected
           Sample.ValueNode Sample.valueFromNode Sample.getNodeName
           Sample.Date_parse no_options Sample.new_year_2023
           (Sample.deprecated (Some [Sample.arg "deletionDate" "2022-12-25"]))
           (Sample.arg "deletionDate" "2022-12-25") "2022-12-25");
    reflexivity.
Defined.

Lemma layout_A_resolution_witness :
  listener Sample.valueFromNode Sample.getNodeName Sample.Date_parse
    no_options Sample.new_year_2023
    (Sample.deprecated (Some [Sample.arg "deletionDate" "25/12/2022"]))
  = match Sample.Date_parse ("2022" ++ "-" ++ "12" ++ "-" ++ "25") with
    | None =>
        report_and_return
          (invalid_date Sample.getNodeName
             (Sample.deprecated (Some [Sample.arg "deletionDate" "25/12/2022"]))
             (Sample.arg "deletionDate" "25/12/2022")
             (JS.VString ("25" ++ "/" ++ "12" ++ "/" ++ "2022")))
    | Some ms =>
        if (Sample.new_year_2023 >? ms)%Z
        then match ParentNode.name Sample.firstname with
             | Some name =>
                 report_and_return
                   (can_be_removed Sample.getNodeName
                      (Sample.deprecated
                         (Some [Sample.arg "deletionDate" "25/12/2022"]))
                      name)
             | None => throw JS.TypeError
             end
        else return_silently
    end.
Proof.
  apply (layout_A_resolution
           Sample.ValueNode Sample.valueFromNode Sample.getNodeName
           Sample.Date_parse no_options Sample.new_year_2023
           (Sample.deprecated (Some [Sample.arg "deletionDate" "25/12/2022"]))
           (Sample.arg "deletionDate" "25/12/2022") "25" "12" "2022");
    reflexivity.
Defined.

Lemma Date_parse_sees_canonical_dates_witness :
  exists dd mm yyyy,
    JS.VString "25/12/2022" = JS.VString (dd ++ "/" ++ mm ++ "/" ++ yyyy)
    /\ Layout.A (dd ++ "/" ++ mm ++ "/" ++ yyyy) = true
    /\ Layout.B "-" (yyyy ++ "-" ++ mm ++ "-" ++ dd) = true
    /\ Some 1671926400000%Z
       = Sample.Date_parse (yyyy ++ "-" ++ mm ++ "-" ++ dd).
Proof.
  apply (Date_parse_sees_canonical_dates Sample.Date_parse
           (JS.VString "25/12/2022") "25/12/2022" (Some 1671926400000%Z)
           eq_refl).
  vm_compute. reflexivity.
Defined.

Lemma non_string_value_never_resolves_witness :
  listener Sample.native_value Sample.getNodeName Sample.Date_parse
    no_options Sample.new_year_2023
    (Sample.native_deprecated
       [Sample.native_arg "deletionDate" (JS.VOther "25/12/2022")])
  = throw JS.TypeError
  /\ listener Sample.native_value Sample.getNodeName Sample.Date_parse
       no_options Sample.new_year_2023
       (Sample.native_deprecated [Sample.native_arg "deletionDate" JS.VOpaque])
     = throw JS.TypeError
  /\ listener Sample.native_value Sample.getNodeName Sample.Date_parse
       no_options Sample.new_year_2023
       (Sample.native_deprecated
          [Sample.native_arg "deletionDate" (JS.VOther "2022")])
     = report_and_return
         (invalid_format Sample.getNodeName
            (Sample.native_deprecated
               [Sample.native_arg "deletionDate" (JS.VOther "2022")])
            (Sample.native_arg "deletionDate" (JS.VOther "2022"))).
Proof.
  split; [|split].
  - apply (non_string_value_never_resolves
             JS.Value Sample.native_value Sample.getNodeName
             Sample.Date_parse no_options Sample.new_year_2023
             (Sample.native_deprecated
                [Sample.native_arg "deletionDate" (JS.VOther "25/12/2022")])
             (Sample.native_arg "deletionDate" (JS.VOther "25/12/2022")));
      [reflexivity | discriminate].
  - apply (non_string_value_never_resolves
             JS.Value Sample.native_value Sample.getNodeName
             Sample.Date_parse no_options Sample.new_year_2023
             (Sample.native_deprecated
                [Sample.native_arg "deletionDate" JS.VOpaque])
             (Sample.native_arg "deletionDate" JS.VOpaque));
      [reflexivity | discriminate].
  - apply (non_string_value_never_resolves
             JS.Value Sample.native_value Sample.getNodeName
             Sample.Date_parse no_options Sample.new_year_2023
             (Sample.native_deprecated
                [Sample.native_arg "deletionDate" (JS.VOther "2022")])
             (Sample.native_arg "deletionDate" (JS.VOther "2022")));
      [reflexivity | discriminate].
Defined.

Lemma removable_from_then_on_witness :
  (messageId_of_first
     (listener Sample.valueFromNode Sample.getNodeName Sample.Date_parse
        no_options Sample.new_year_2023
        (Sample.deprecated (Some [Sample.arg "deletionDate" "25/12/2022"])))
   = Some MESSAGE_CAN_BE_REMOVED ->
   listener Sample.valueFromNode Sample.getNodeName Sample.Date_parse
     no_options (Sample.new_year_2023 + Sample.msPerDay)%Z
     (Sample.deprecated (Some [Sample.arg "deletionDate" "25/12/2022"]))
   = listener Sample.valueFromNode Sample.getNodeName Sample.Date_parse
       no_options Sample.new_year_2023
       (Sample.deprecated (Some [Sample.arg "deletionDate" "25/12/2022"])))
  /\ (listener Sample.valueFromNode Sample.getNodeName Sample.Date_parse
        no_options (Sample.new_year_2023 + Sample.msPerDay)%Z
        (Sample.deprecated (Some [Sample.arg "deletionDate" "25/12/2022"]))
      = return_silently ->
      listener Sample.valueFromNode Sample.getNodeName Sample.Date_parse
        no_options Sample.new_year_2023
        (Sample.deprecated (Some [Sample.arg "deletionDate" "25/12/2022"]))
      = return_silently).
Proof.
  apply (removable_from_then_on
           Sample.ValueNode Sample.valueFromNode Sample.getNodeName
           Sample.Date_parse no_options
           Sample.new_year_2023 (Sample.new_year_2023 + Sample.msPerDay)%Z
           (Sample.deprecated (Some [Sample.arg "deletionDate" "25/12/2022"]))).
  vm_compute. discriminate.
Defined.

Lemma other_outcomes_ignore_the_clock_witness :
  listener Sample.valueFromNode Sample.getNodeName Sample.Date_parse
    no_options 0%Z
    (Sample.deprecated (Some [Sample.arg "deletionDate" "2022-12-25"]))
  = listener Sample.valueFromNode Sample.getNodeName Sample.Date_parse
      no_options Sample.new_year_2023
      (Sample.deprecated (Some [Sample.arg "deletionDate" "2022-12-25"])).
Proof.
  apply (other_outcomes_ignore_the_clock
           Sample.ValueNode Sample.valueFromNode Sample.getNodeName
           Sample.Date_parse no_options Sample.new_year_2023 0%Z
           (Sample.deprecated (Some [Sample.arg "deletionDate" "2022-12-25"]))).
  left.
  exists (invalid_format Sample.getNodeName
            (Sample.deprecated (Some [Sample.arg "deletionDate" "2022-12-25"]))
            (Sample.arg "deletionDate" "2022-12-25")).
  split; [vm_compute; reflexivity | discriminate].
Defined.

Lemma later_arguments_are_ignored_witness :
  listener Sample.valueFromNode Sample.getNodeName Sample.Date_parse
    no_options Sample.new_year_2023
    (with_arguments (Sample.deprecated None)
       ([Sample.arg "reason" "renamed"]
        ++ Sample.arg "deletionDate" "25/12/2099"
        :: [Sample.arg "deletionDate" "25/12/2022"]))
  = listener Sample.valueFromNode Sample.getNodeName Sample.Date_parse
      no_options Sample.new_year_2023
      (with_arguments (Sample.deprecated None)
         [Sample.arg "deletionDate" "25/12/2099"]).
Proof.
  apply (later_arguments_are_ignored
           Sample.ValueNode Sample.valueFromNode Sample.getNodeName
           Sample.Date_parse no_options Sample.new_year_2023
           (Sample.deprecated None)
           [Sample.arg "reason" "renamed"]
           [Sample.arg "deletionDate" "25/12/2022"]
           (Sample.arg "deletionDate" "25/12/2099")).
  - reflexivity.
  - intros b [<-|[]]. vm_compute. discriminate.
Defined.

Lemma data_fills_placeholders_witness :
  data_keys
    (invalid_format Sample.getNodeName
       (Sample.deprecated (Some [Sample.arg "deletionDate" "2022-12-25"]))
       (Sample.arg "deletionDate" "2022-12-25"))
  = ESLint.placeholders (Meta.messages MESSAGE_INVALID_FORMAT)
  /\ In ("nodeName", JS.VString "field `User.firstname`")
        (data
           (invalid_format Sample.getNodeName
              (Sample.deprecated (Some [Sample.arg "deletionDate" "2022-12-25"]))
              (Sample.arg "deletionDate" "2022-12-25"))).
Proof.
  apply (data_fills_placeholders
           Sample.ValueNode Sample.valueFromNode Sample.getNodeName
           Sample.Date_parse no_options Sample.new_year_2023
           (Sample.deprecated (Some [Sample.arg "deletionDate" "2022-12-25"]))).
  left. vm_compute. reflexivity.
Defined.

Lemma suggestion_only_when_removable_witness :
  suggest
    (can_be_removed Sample.getNodeName
       (Sample.deprecated (Some [Sample.arg "deletionDate" "25/12/2022"]))
       {| NameNode.value := "firstname"; NameNode.range := (14, 23) |})
  <> []
  <-> messageId
        (can_be_removed Sample.getNodeName
           (Sample.deprecated (Some [Sample.arg "deletionDate" "25/12/2022"]))
           {| NameNode.value := "firstname"; NameNode.range := (14, 23) |})
      = MESSAGE_CAN_BE_REMOVED.
Proof.
  apply (suggestion_only_when_removable
           Sample.ValueNode Sample.valueFromNode Sample.getNodeName
           Sample.Date_parse no_options Sample.new_year_2023
           (Sample.deprecated (Some [Sample.arg "deletionDate" "25/12/2022"]))).
  left. vm_compute. reflexivity.
Defined.

Lemma nameless_parent_throws_when_removable_witness :
  ((1671926400000 < Sample.new_year_2023)%Z ->
   listener Sample.valueFromNode Sample.getNodeName Sample.Date_parse
     no_options Sample.new_year_2023
     (Sample.deprecated_schema (Some [Sample.arg "deletionDate" "25/12/2022"]))
   = throw JS.TypeError)
  /\ ((Sample.new_year_2023 <= 1671926400000)%Z ->
      listener Sample.valueFromNode Sample.getNodeName Sample.Date_parse
        no_options Sample.new_year_2023
        (Sample.deprecated_schema
           (Some [Sample.arg "deletionDate" "25/12/2022"]))
      = return_silently).
Proof.
  apply (nameless_parent_throws_when_removable
           Sample.ValueNode Sample.valueFromNode Sample.getNodeName
           Sample.Date_parse no_options Sample.new_year_2023 1671926400000%Z
           (Sample.deprecated_schema
              (Some [Sample.arg "deletionDate" "25/12/2022"]))
           (Sample.arg "deletionDate" "25/12/2022") "25/12/2022");
    reflexivity.
Defined.
